(** * urlshort: path-to-URL redirect handlers

    A shallow embedding of the four revisions of [handler.go] kept in the
    repository ([part_003], [part_001], [part_002] and
    [students/mpereira/handler.go]) together with the properties of the
    resolution chain and of the seeding of the bolt store.

    Go values are modelled as follows.
    - [string] and [[]byte] are both [string] (a Go string is a byte
      sequence and the code only converts between the two).
    - [map[string]string] is [gmap string string]; a nil map reads like the
      empty one.
    - [error] is [option error], [None] being Go's [nil].
    - a function value that may be nil ([http.HandlerFunc]) is an [option].
    - code with effects runs in the monad [M]: state passing, with panics. *)

From stdpp Require Import base option list strings gmap.
From Stdlib Require Import ZArith.

Local Open Scope string_scope.
Local Open Scope Z_scope.

(** The empty Go string. *)
Definition nilstr : string := EmptyString.

(** ** Errors and panics *)

(** The error values that can reach the handlers: bolt's sentinel errors,
    a failed [ioutil.ReadFile], and a failed (un)marshalling. *)
Inductive error : Type :=
  | ErrDatabaseNotOpen
  | ErrTxNotWritable
  | ErrBucketNameRequired
  | ErrKeyRequired
  | ErrKeyTooLarge
  | ErrValueTooLarge
  | ErrNotExist (path : string)
  | ErrCodec (msg : string).

Inductive PanicVal : Type :=
  | PanicError (e : error)     (* panic(err) *)
  | NilDereference.            (* runtime error: nil pointer dereference *)

(** ** The state-and-panic monad *)

Inductive Res (S A : Type) : Type :=
  | Done (a : A) (s : S)
  | Panicked (v : PanicVal) (s : S).
Arguments Done {S A} a s.
Arguments Panicked {S A} v s.

Definition M (S A : Type) : Type := S → Res S A.

Global Instance M_ret {S} : MRet (M S) := λ A a s, Done a s.

Global Instance M_bind {S} : MBind (M S) := λ A B k m s,
  match m s with
  | Done a s' => k a s'
  | Panicked v s' => Panicked v s'
  end.

Definition panic {S A} (v : PanicVal) : M S A := λ s, Panicked v s.

Definition gets {S A} (f : S → A) : M S A := λ s, Done (f s) s.

Definition modify {S} (f : S → S) : M S unit := λ s, Done tt (f s).

(** ** The world: file system, bolt database, response writer, stdout *)

Module bolt.

(** A bucket maps keys to values. *)
Abbreviation Bucket := (gmap string string).

(** The database file: whether it is open, and its committed buckets. *)
Record DB : Type := mkDB {
  opened : bool;
  buckets : gmap string Bucket
}.

(** A transaction works on its own copy of the buckets. *)
Record Tx : Type := mkTx {
  writable : bool;
  root : gmap string Bucket
}.

(** [*bolt.Bucket]: nil, or the bucket of that name in the transaction. *)
Abbreviation BucketRef := (option string).

Definition MaxKeySize : Z := 32768.
Definition MaxValueSize : Z := 2147483646.

End bolt.

(** [*bolt.DB]: nil, or the handle of the one database the process opens
    ([bolt.Open] of [my.db] in [main]). *)
Inductive DBptr : Type := nilDB | theDB.

Global Instance DBptr_eq_dec : EqDecision DBptr.
Proof. solve_decision. Defined.

(** What a handler did to its [http.ResponseWriter]: the calls of
    [http.Redirect], recorded with the url and the status code they were
    given, and the bodies the handlers write themselves.  What a call of
    [http.Redirect] sends (the Location header it derives from the url, see
    [redirect_Location], and the short HTML body it adds for a GET) is part
    of that call and is not recorded apart. *)
Inductive Event : Type :=
  | EvRedirect (url : string) (code : Z)   (* http.Redirect(w, r, url, code) *)
  | EvWrite (body : string).               (* a body write, status 200 *)

Record World : Type := mkWorld {
  files : gmap string string;
  store : bolt.DB;
  resp : list Event;
  stdout : list string
}.

Record Request : Type := mkRequest { URL_Path : string }.

Definition Handler : Type := Request → M World unit.

Definition StatusFound : Z := 302.
Definition StatusPermanentRedirect : Z := 308.

Definition http_Redirect (url : string) (code : Z) : M World unit :=
  modify (λ w, mkWorld (files w) (store w) (resp w ++ [EvRedirect url code]) (stdout w)).

Definition Fprintln (s : string) : M World unit :=
  modify (λ w, mkWorld (files w) (store w)
                 (resp w ++ [EvWrite (s ++ String (Ascii.ascii_of_nat 10) EmptyString)]) (stdout w)).

Definition Printf (s : string) : M World unit :=
  modify (λ w, mkWorld (files w) (store w) (resp w) (stdout w ++ [s])).

Definition ioutil_ReadFile (path : string) : M World (string * option error) :=
  gets (λ w, match files w !! path with
             | Some content => (content, None)
             | None => (nilstr, Some (ErrNotExist path))
             end).

(** [main.hello], the terminal handler behind [defaultMux]. *)
Definition hello : Handler := λ _, Fprintln "Hello, world!".

(** ** Configuration records (identical in the four revisions) *)

Record pathUrlObj : Type := mkPathUrlObj { Path : string; Url : string }.

(** [pathUrlUnit]: the fields [Path] and [URL] of the JSON variant
    ([part_003] declares the same struct inline in [pathUrlObjJson]). *)
Record pathUrlUnit : Type := mkPathUrlUnit { unit_Path : string; unit_URL : string }.

Record pathUrlObjJson : Type := mkPathUrlObjJson { PathURL : list pathUrlUnit }.

(** ** The Go libraries and runtime the handlers rely on

    [yaml.v2], [encoding/json] and the order in which [range] visits a map
    are not code of this repository.  [json_Unmarshal] and [yaml_Unmarshal]
    give the value left in the destination and the error; they may leave a
    partly filled value next to an error, as the libraries do.  [range_map]
    is the order in which [range] visits the entries of a map: Go leaves it
    unspecified, so it is any enumeration of the entries. *)
Class GoEnv : Type := mkGoEnv {
  yaml_Unmarshal : string → list pathUrlObj * option error;
  json_Unmarshal : string → pathUrlObjJson * option error;
  json_Marshal : pathUrlUnit → string * option error;
  range_map : gmap string string → list (string * string);
  range_map_perm : ∀ m, range_map m ≡ₚ map_to_list m
}.

(** ** bolt transactions

    The operations of [github.com/boltdb/bolt] the handlers call, after the
    library's documented behaviour: [Bucket] answers nil for a bucket that
    does not exist, [Get] answers nil for a key that does not exist, [Put]
    refuses an empty or oversized key and an oversized value, and a method
    called on a nil bucket or database dereferences it. *)

Definition TxM (A : Type) : Type := M (World * bolt.Tx) A.

(** Run a computation on the world from inside a transaction body. *)
Definition inWorld {A} (m : M World A) : TxM A := λ '(w, tx),
  match m w with
  | Done a w' => Done a (w', tx)
  | Panicked v w' => Panicked v (w', tx)
  end.

Definition Tx_Bucket (name : string) : TxM bolt.BucketRef :=
  gets (λ '(_, tx), match bolt.root tx !! name with
                    | Some _ => Some name
                    | None => None
                    end).

Definition Tx_CreateBucketIfNotExists (name : string)
  : TxM (bolt.BucketRef * option error) := λ '(w, tx),
  if negb (bolt.writable tx) then Done (None, Some ErrTxNotWritable) (w, tx)
  else if decide (name = nilstr) then Done (None, Some ErrBucketNameRequired) (w, tx)
  else match bolt.root tx !! name with
       | Some _ => Done (Some name, None) (w, tx)
       | None => Done (Some name, None)
                   (w, bolt.mkTx (bolt.writable tx) (<[name := ∅]> (bolt.root tx)))
       end.

(** [b.Get(key)]: nil ([None]) when the key is absent; a nil receiver is
    dereferenced. *)
Definition Bucket_Get (b : bolt.BucketRef) (key : string) : TxM (option string) :=
  match b with
  | None => panic NilDereference
  | Some name => gets (λ '(_, tx), bolt.root tx !! name ≫= λ bk, bk !! key)
  end.

Definition Bucket_Put (b : bolt.BucketRef) (key value : string) : TxM (option error) :=
  match b with
  | None => panic NilDereference
  | Some name => λ '(w, tx),
      if negb (bolt.writable tx) then Done (Some ErrTxNotWritable) (w, tx)
      else if decide (key = nilstr) then Done (Some ErrKeyRequired) (w, tx)
      else if bolt.MaxKeySize <? Z.of_nat (String.length key)
           then Done (Some ErrKeyTooLarge) (w, tx)
      else if bolt.MaxValueSize <? Z.of_nat (String.length value)
           then Done (Some ErrValueTooLarge) (w, tx)
      else Done None
             (w, bolt.mkTx (bolt.writable tx)
                   (<[name := <[key := value]> (default ∅ (bolt.root tx !! name))]>
                      (bolt.root tx)))
  end.

Definition commit (w : World) (tx : bolt.Tx) : World :=
  mkWorld (files w) (bolt.mkDB (bolt.opened (store w)) (bolt.root tx)) (resp w) (stdout w).

(** [db.View(fn)]: a read-only transaction, always rolled back.  On a
    database that is not open, [Begin] fails and [fn] is not run; a panic
    of [fn] passes through.  Writes to the response made by [fn] stay. *)
Definition DB_View (db : DBptr) (fn : TxM (option error)) : M World (option error) :=
  match db with
  | nilDB => panic NilDereference
  | theDB => λ w,
      if bolt.opened (store w) then
        match fn (w, bolt.mkTx false (bolt.buckets (store w))) with
        | Done err (w', _) => Done err w'
        | Panicked v (w', _) => Panicked v w'
        end
      else Done (Some ErrDatabaseNotOpen) w
  end.

(** [db.Update(fn)]: committed when [fn] returns nil, rolled back when it
    returns an error or panics.  The commit itself is taken to succeed
    (no disk failure), and the database to be opened read-write, as [main]
    opens it. *)
Definition DB_Update (db : DBptr) (fn : TxM (option error)) : M World (option error) :=
  match db with
  | nilDB => panic NilDereference
  | theDB => λ w,
      if bolt.opened (store w) then
        match fn (w, bolt.mkTx true (bolt.buckets (store w))) with
        | Done None (w', tx') => Done None (commit w' tx')
        | Done (Some e) (w', _) => Done (Some e) w'
        | Panicked v (w', _) => Panicked v w'
        end
      else Done (Some ErrDatabaseNotOpen) w
  end.

(** [for k, v := range pathMap { err = b.Put([]byte(k), []byte(v)) }],
    the pairs taken in the order [range] visits them. *)
Fixpoint range_Put (b : bolt.BucketRef) (kvs : list (string * string))
    (err : option error) : TxM (option error) :=
  match kvs with
  | [] => mret err
  | (k, v) :: rest => err' ← Bucket_Put b k v; range_Put b rest err'
  end.

(** What [Put] answers for a key and a value on a live bucket of a writable
    transaction, and what it does to the bucket. *)
Definition put_error (k v : string) : option error :=
  if decide (k = nilstr) then Some ErrKeyRequired
  else if bolt.MaxKeySize <? Z.of_nat (String.length k) then Some ErrKeyTooLarge
  else if bolt.MaxValueSize <? Z.of_nat (String.length v) then Some ErrValueTooLarge
  else None.

Definition put_pure (bk : gmap string string) (kv : string * string) : gmap string string :=
  match put_error kv.1 kv.2 with
  | None => <[kv.1 := kv.2]> bk
  | Some _ => bk
  end.

(** The value of [err] after the loop: each [Put] overwrites it. *)
Definition last_put_error (err : option error) (kvs : list (string * string))
  : option error :=
  foldl (λ _ kv, put_error kv.1 kv.2) err kvs.

(** ** Parsing and map building (identical in the four revisions) *)

Section parsing.
Context {env : GoEnv}.

Definition parseYAML (yaml : string) : list pathUrlObj * option error :=
  let '(pathList, err) := yaml_Unmarshal yaml in
  match err with
  | Some e => (pathList, Some e)
  | None => (pathList, None)
  end.

Definition parseJSON (jsonFile : string) : pathUrlObjJson * option error :=
  let '(pathList, err) := json_Unmarshal jsonFile in
  match err with
  | Some e => (pathList, Some e)
  | None => (pathList, None)
  end.

End parsing.

Definition buildMap (pathUrlObj : list pathUrlObj) : gmap string string :=
  foldl (λ pathMap path, <[Path path := Url path]> pathMap) ∅ pathUrlObj.

Definition buildMapFromJson (pathUrlObj : pathUrlObjJson) : gmap string string :=
  foldl (λ pathMap path, <[unit_Path path := unit_URL path]> pathMap) ∅
        (PathURL pathUrlObj).

(** The name of the bucket and of the seed file, as the code spells them. *)
Definition PathRedirect : string := "PathRedirect".
Definition conf_json : string := "../conf.json".

(** ** [part_003]: the map-only revision *)

Module Part003.

Definition MapHandler (pathsToUrls : gmap string string) (fallback : Handler) : Handler :=
  λ r, match pathsToUrls !! URL_Path r with
       | Some val => http_Redirect val StatusPermanentRedirect
       | None => fallback r
       end.

Section constructors.
Context {env : GoEnv}.

Definition YAMLHandler (yaml yamlFilePath : string) (fallback : Handler)
  : M World (option Handler * option error) :=
  let finish := λ '(parsedYaml, err),
    match err : option error with
    | Some e => mret (None, Some e)
    | None =>
        let pathMap := buildMap parsedYaml in
        mret (Some (MapHandler pathMap fallback), None)
    end in
  if decide (yamlFilePath ≠ nilstr) then
    '(yamlFile, redErr) ← ioutil_ReadFile yamlFilePath;
    match redErr with
    | Some e => mret (None, Some e)
    | None => finish (parseYAML yamlFile)
    end
  else finish (parseYAML yaml).

Definition JSONHandler (json jsonFilePath : string) (fallback : Handler)
  : M World (option Handler * option error) :=
  let finish := λ '(parsedJson, err),
    match err : option error with
    | Some e => mret (None, Some e)
    | None =>
        let pathMap := buildMapFromJson parsedJson in
        mret (Some (MapHandler pathMap fallback), None)
    end in
  if decide (jsonFilePath ≠ nilstr) then
    '(jsonFile, redErr) ← ioutil_ReadFile jsonFilePath;
    match redErr with
    | Some e => mret (None, Some e)
    | None => finish (parseJSON jsonFile)
    end
  else finish (parseJSON json).

End constructors.

End Part003.

(** ** [part_001]: [DBHandler] with the per-request seeder *)

Module Part001.

Definition MapHandler (pathsToUrls : gmap string string) (fallback : Handler) : Handler :=
  λ r,
    let path := URL_Path r in
    match pathsToUrls !! path with
    | Some dest => http_Redirect dest StatusFound
    | None => fallback r
    end.

Section with_env.
Context {env : GoEnv}.

Definition YAMLHandler (yaml yamlFilePath : string) (fallback : Handler)
  : M World (option Handler * option error) :=
  let finish := λ '(parsedYaml, err),
    match err : option error with
    | Some e => mret (None, Some e)
    | None =>
        let pathMap := buildMap parsedYaml in
        mret (Some (MapHandler pathMap fallback), None)
    end in
  if decide (yamlFilePath ≠ nilstr) then
    '(yamlFile, redErr) ← ioutil_ReadFile yamlFilePath;
    match redErr with
    | Some e => mret (None, Some e)
    | None => finish (parseYAML yamlFile)
    end
  else finish (parseYAML yaml).

Definition JSONHandler (json jsonFilePath : string) (fallback : Handler)
  : M World (option Handler * option error) :=
  let finish := λ '(parsedJson, err),
    match err : option error with
    | Some e => mret (None, Some e)
    | None =>
        let pathMap := buildMapFromJson parsedJson in
        mret (Some (MapHandler pathMap fallback), None)
    end in
  if decide (jsonFilePath ≠ nilstr) then
    '(jsonFile, redErr) ← ioutil_ReadFile jsonFilePath;
    match redErr with
    | Some e => mret (None, Some e)
    | None => finish (parseJSON jsonFile)
    end
  else finish (parseJSON json).

(** The returned map is nil ([∅]) next to an error and for an empty
    [filePath]. *)
Definition jsonReader (filePath : string)
  : M World (gmap string string * option error) :=
  if decide (filePath ≠ nilstr) then
    '(jsonFile, redErr) ← ioutil_ReadFile filePath;
    match redErr with
    | Some e => mret (∅, Some e)
    | None =>
        let '(parsedJson, errParse) := parseJSON jsonFile in
        match errParse with
        | Some e => mret (∅, Some e)
        | None => mret (buildMapFromJson parsedJson, None)
        end
    end
  else mret (∅, None).

Definition loadDB (db : DBptr) : M World (option error) :=
  if decide (db ≠ nilDB) then
    DB_Update db (
      '(pathMap, err) ← inWorld (jsonReader conf_json);
      match err with
      | Some e => mret (Some e)
      | None =>
          '(b, err) ← Tx_CreateBucketIfNotExists PathRedirect;
          range_Put b (range_map pathMap) err
      end)
  else mret None.

Definition DBHandler (db : DBptr) (fallback : Handler) : Handler :=
  λ r,
    err ← loadDB db;
    match err with
    | Some e => panic (PanicError e)
    | None =>
        let url := nilstr in
        let path := URL_Path r in
        Printf ("path deducted: " +:+ path);;
        if decide (db ≠ nilDB) then
          err ← DB_View db (
            b ← Tx_Bucket PathRedirect;
            bts ← Bucket_Get b path;
            let url := match bts with Some s => s | None => url end in
            inWorld (http_Redirect url StatusPermanentRedirect);;
            mret None);
          match err with
          | Some _ => fallback r
          | None => mret tt
          end
        else mret tt
    end.

End with_env.

End Part001.

(** ** [part_002]: the store holds the JSON encoding of each pair *)

Module Part002.

Definition MapHandler (pathsToUrls : gmap string string) (db : DBptr)
    (fallback : Handler) : Handler :=
  λ r,
    if decide (db ≠ nilDB) then
      err ← DB_View db (
        b ← Tx_Bucket PathRedirect;
        v ← Bucket_Get b (URL_Path r);
        inWorld (http_Redirect (default nilstr v) StatusPermanentRedirect);;
        mret None);
      match err with
      | Some _ => fallback r
      | None => mret tt
      end
    else
      match pathsToUrls !! URL_Path r with
      | Some val => http_Redirect val StatusPermanentRedirect
      | None => fallback r
      end.

Section with_env.
Context {env : GoEnv}.

Definition encodeJSON (pathUrl : pathUrlUnit) : string * option error :=
  let '(encoded, err) := json_Marshal pathUrl in
  match err with
  | Some e => (encoded, Some e)
  | None => (encoded, None)
  end.

Definition YAMLHandler (yaml yamlFilePath : string) (fallback : Handler)
  : M World (option Handler * option error) :=
  let finish := λ '(parsedYaml, err),
    match err : option error with
    | Some e => mret (None, Some e)
    | None =>
        let pathMap := buildMap parsedYaml in
        mret (Some (MapHandler pathMap nilDB fallback), None)
    end in
  if decide (yamlFilePath ≠ nilstr) then
    '(yamlFile, redErr) ← ioutil_ReadFile yamlFilePath;
    match redErr with
    | Some e => mret (None, Some e)
    | None => finish (parseYAML yamlFile)
    end
  else finish (parseYAML yaml).

(** The loop of the update transaction: encode, return at once on an
    encoding error, otherwise [err = b.Put(...)]. *)
Fixpoint range_encode_Put (b : bolt.BucketRef) (l : list pathUrlUnit)
    (err : option error) : TxM (option error) :=
  match l with
  | [] => mret err
  | v :: rest =>
      let '(encoded, errJson) := encodeJSON v in
      match errJson with
      | Some e => mret (Some e)
      | None => err' ← Bucket_Put b (unit_Path v) encoded;
                range_encode_Put b rest err'
      end
  end.

Definition JSONHandler (json jsonFilePath : string) (db : DBptr) (fallback : Handler)
  : M World (option Handler * option error) :=
  let finish := λ '(parsedJson, err),
    match err : option error with
    | Some e => mret (None, Some e)
    | None =>
        _ ← DB_Update db (
              b ← Tx_Bucket PathRedirect;
              range_encode_Put b (PathURL parsedJson) None);
        let pathMap := buildMapFromJson parsedJson in
        mret (Some (MapHandler pathMap db fallback), None)
    end in
  if decide (jsonFilePath ≠ nilstr) then
    '(jsonFile, redErr) ← ioutil_ReadFile jsonFilePath;
    match redErr with
    | Some e => mret (None, Some e)
    | None => finish (parseJSON jsonFile)
    end
  else finish (parseJSON json).

End with_env.

End Part002.

(** ** [students/mpereira/handler.go]: the store holds the url *)

Module Mpereira.

Definition MapHandler (pathsToUrls : gmap string string) (db : DBptr)
    (fallback : Handler) : Handler :=
  λ r,
    if decide (db ≠ nilDB) then
      err ← DB_View db (
        b ← Tx_Bucket PathRedirect;
        v ← Bucket_Get b (URL_Path r);
        inWorld (Printf ("just read: " +:+ default nilstr v));;
        inWorld (http_Redirect (default nilstr v) StatusPermanentRedirect);;
        mret None);
      match err with
      | Some _ => fallback r
      | None => mret tt
      end
    else
      match pathsToUrls !! URL_Path r with
      | Some val => http_Redirect val StatusPermanentRedirect
      | None => fallback r
      end.

Section with_env.
Context {env : GoEnv}.

Definition YAMLHandler (yaml yamlFilePath : string) (fallback : Handler)
  : M World (option Handler * option error) :=
  let finish := λ '(parsedYaml, err),
    match err : option error with
    | Some e => mret (None, Some e)
    | None =>
        let pathMap := buildMap parsedYaml in
        mret (Some (MapHandler pathMap nilDB fallback), None)
    end in
  if decide (yamlFilePath ≠ nilstr) then
    '(yamlFile, redErr) ← ioutil_ReadFile yamlFilePath;
    match redErr with
    | Some e => mret (None, Some e)
    | None => finish (parseYAML yamlFile)
    end
  else finish (parseYAML yaml).

(** The error of [db.Update] is assigned to [err] and not read again. *)
Definition JSONHandler (json jsonFilePath : string) (db : DBptr) (fallback : Handler)
  : M World (option Handler * option error) :=
  let finish := λ '(parsedJson, err),
    match err : option error with
    | Some e => mret (None, Some e)
    | None =>
        let pathMap := buildMapFromJson parsedJson in
        _ ← DB_Update db (
              '(b, err) ← Tx_CreateBucketIfNotExists PathRedirect;
              range_Put b (range_map pathMap) err);
        mret (Some (MapHandler pathMap db fallback), None)
    end in
  if decide (jsonFilePath ≠ nilstr) then
    '(jsonFile, redErr) ← ioutil_ReadFile jsonFilePath;
    match redErr with
    | Some e => mret (None, Some e)
    | None => finish (parseJSON jsonFile)
    end
  else finish (parseJSON json).

End with_env.

End Mpereira.

(** ** A concrete environment, for running the handlers

    The decoders below are tables: they decode the documents listed and
    reject every other input.  [sample_json_Marshal] renders a pair the way
    [encoding/json] does for strings that need no escaping. *)

Definition dq : string := String (Ascii.ascii_of_nat 34) EmptyString.
Definition quoted (s : string) : string := dq +:+ s +:+ dq.

Definition json_unit (v : pathUrlUnit) : string :=
  "{" +:+ quoted "path" +:+ ":" +:+ quoted (unit_Path v) +:+ ","
      +:+ quoted "url" +:+ ":" +:+ quoted (unit_URL v) +:+ "}".

Fixpoint json_units (l : list pathUrlUnit) : string :=
  match l with
  | [] => nilstr
  | [v] => json_unit v
  | v :: rest => json_unit v +:+ "," +:+ json_units rest
  end.

Definition json_doc (l : list pathUrlUnit) : string :=
  "{" +:+ quoted "PathUrl" +:+ ":[" +:+ json_units l +:+ "]}".

Definition gophercises : string := "https://github.com/gophercises/urlshort".

Definition units_ok : list pathUrlUnit := [mkPathUrlUnit "/urlshort" gophercises].
Definition units_dup : list pathUrlUnit :=
  [mkPathUrlUnit "/a" "https://x.example"; mkPathUrlUnit "/a" "https://y.example"].
Definition units_emptykey : list pathUrlUnit :=
  [mkPathUrlUnit nilstr "https://x.example"; mkPathUrlUnit "/a" "https://a.example"].
Definition units_onlyempty : list pathUrlUnit := [mkPathUrlUnit nilstr "https://x.example"].

(** The document of the spec whose path is the number 123: a number where
    a string is expected. *)
Definition json_wrong_type : string :=
  "{" +:+ quoted "PathUrl" +:+ ": [{" +:+ quoted "path" +:+ ": 123}]}".

Definition sample_json_table : list (string * (pathUrlObjJson * option error)) :=
  [ (json_doc units_ok, (mkPathUrlObjJson units_ok, None));
    (json_doc units_dup, (mkPathUrlObjJson units_dup, None));
    (json_doc units_emptykey, (mkPathUrlObjJson units_emptykey, None));
    (json_doc units_onlyempty, (mkPathUrlObjJson units_onlyempty, None));
    (json_wrong_type,
       (mkPathUrlObjJson [mkPathUrlUnit nilstr nilstr],
        Some (ErrCodec "json: cannot unmarshal number into Go struct field pathUrlUnit.path of type string"))) ].

Definition sample_json_Unmarshal (s : string) : pathUrlObjJson * option error :=
  default (mkPathUrlObjJson [], Some (ErrCodec "invalid character looking for beginning of value"))
          ((list_to_map sample_json_table : gmap string _) !! s).

Definition yaml_ok : string :=
  "- path: /urlshort" +:+ String (Ascii.ascii_of_nat 10) EmptyString
    +:+ "  url: https://github.com/gophercises/urlshort".

Definition yaml_wrong_type : string := "path: /urlshort".

Definition sample_yaml_Unmarshal (s : string) : list pathUrlObj * option error :=
  if decide (s = yaml_ok) then ([mkPathUrlObj "/urlshort" gophercises], None)
  else ([], Some (ErrCodec "yaml: unmarshal errors")).

Definition sample_json_Marshal (v : pathUrlUnit) : string * option error :=
  (json_unit v, None).

(** [range] visiting a map in the order of [map_to_list] ... *)
Definition go_sample : GoEnv :=
  mkGoEnv sample_yaml_Unmarshal sample_json_Unmarshal sample_json_Marshal
          map_to_list (λ m, reflexivity (map_to_list m)).

(** ... and in the opposite order. *)
Definition go_sample_rev : GoEnv :=
  mkGoEnv sample_yaml_Unmarshal sample_json_Unmarshal sample_json_Marshal
          (λ m, reverse (map_to_list m)) (λ m, reverse_Permutation (map_to_list m)).

(** The map literal of [main]. *)
Definition pathsToUrls_main : gmap string string :=
  {[ "/urlshort-godoc" := "https://godoc.org/github.com/gophercises/urlshort";
     "/yaml-godoc" := "https://godoc.org/gopkg.in/yaml.v2" ]}.

(** Worlds: an open database without any bucket; one whose bucket is
    empty; one seeded with [units_ok], next to the matching seed file. *)
Definition w_fresh : World := mkWorld ∅ (bolt.mkDB true ∅) [] [].

Definition w_bucket : World :=
  mkWorld ∅ (bolt.mkDB true {[ PathRedirect := ∅ ]}) [] [].

Definition w_seeded : World :=
  mkWorld {[ conf_json := json_doc units_ok ]}
          (bolt.mkDB true {[ PathRedirect := {[ "/urlshort" := gophercises ]} ]}) [] [].

(** An open database and a seed file holding [units_emptykey]. *)
Definition w_emptykey : World :=
  mkWorld {[ conf_json := json_doc units_emptykey ]} (bolt.mkDB true ∅) [] [].

(** What a run returned or panicked with, the final world left aside. *)
Definition outcome {A} (r : Res World A) : A + PanicVal :=
  match r with
  | Done a _ => inl a
  | Panicked v _ => inr v
  end.

(** ** The Location header set by [http.Redirect]

    [http.Redirect] of Go's [net/http] does not always send the url it is
    given: a url that parses without scheme and host is resolved against
    the request path and cleaned ([path.Split], [path.Clean]) before it is
    set as the Location header, and bytes outside ASCII are percent-escaped.
    The library is not code of this repository; [redirect_Location] follows
    its behaviour on two classes of urls and answers [None] on the others:
    - a url that starts with a scheme (a letter, then letters, digits,
      plus, minus or dot, then a colon) is left as it is;
    - a url made only of letters, digits, minus, dot, underscore, tilde and
      slash that does not start with two slashes parses as a relative
      reference and is resolved against the request path. *)


























(** ** A second environment, with a two-pair document

    The pairs of the JSON literal of [main] in [part_000]; the two
    environments decode alike and visit a map in opposite orders. *)

Definition units_two : list pathUrlUnit :=
  [mkPathUrlUnit "/urlshort" gophercises;
   mkPathUrlUnit "/urlshort-final" "https://github.com/gophercises/urlshort/tree/solution"].

Definition two_json_Unmarshal (s : string) : pathUrlObjJson * option error :=
  if decide (s = json_doc units_two) then (mkPathUrlObjJson units_two, None)
  else (mkPathUrlObjJson [],
        Some (ErrCodec "invalid character looking for beginning of value")).

Definition go_two : GoEnv :=
  mkGoEnv sample_yaml_Unmarshal two_json_Unmarshal sample_json_Marshal
          map_to_list (λ m, reflexivity (map_to_list m)).

Definition go_two_rev : GoEnv :=
  mkGoEnv sample_yaml_Unmarshal two_json_Unmarshal sample_json_Marshal
          (λ m, reverse (map_to_list m)) (λ m, reverse_Permutation (map_to_list m)).

(** An open database holding an older pair, next to the two-pair seed
    file. *)
Definition w_two : World :=
  mkWorld {[ conf_json := json_doc units_two ]}
          (bolt.mkDB true {[ PathRedirect := {[ "/old" := "https://old.example" ]} ]})
          [] [].

(** * Properties *)

(** Unfold the monad and the primitive effects of a handler body. *)
Ltac run_monad :=
  unfold mbind, mret, M_bind, M_ret, inWorld, gets, modify, panic,
    http_Redirect, Printf, Tx_Bucket, Bucket_Get; simpl.

(** ** The map-only branch of every [MapHandler] *)

Lemma Part003_MapHandler_hit m fallback r w u :
  m !! URL_Path r = Some u →
  Part003.MapHandler m fallback r w = http_Redirect u StatusPermanentRedirect w.
Proof. intros Hm. unfold Part003.MapHandler. by rewrite Hm. Qed.

Lemma Part003_MapHandler_miss m fallback r w :
  m !! URL_Path r = None → Part003.MapHandler m fallback r w = fallback r w.
Proof. intros Hm. unfold Part003.MapHandler. by rewrite Hm. Qed.

Lemma Part001_MapHandler_hit m fallback r w u :
  m !! URL_Path r = Some u →
  Part001.MapHandler m fallback r w = http_Redirect u StatusFound w.
Proof. intros Hm. unfold Part001.MapHandler. by rewrite Hm. Qed.

Lemma Part001_MapHandler_miss m fallback r w :
  m !! URL_Path r = None → Part001.MapHandler m fallback r w = fallback r w.
Proof. intros Hm. unfold Part001.MapHandler. by rewrite Hm. Qed.


Lemma Part002_MapHandler_nil_miss m fallback r w :
  m !! URL_Path r = None → Part002.MapHandler m nilDB fallback r w = fallback r w.
Proof. intros Hm. unfold Part002.MapHandler. case_decide; [done|]. by rewrite Hm. Qed.

Lemma Mpereira_MapHandler_nil_hit m fallback r w u :
  m !! URL_Path r = Some u →
  Mpereira.MapHandler m nilDB fallback r w = http_Redirect u StatusPermanentRedirect w.
Proof. intros Hm. unfold Mpereira.MapHandler. case_decide; [done|]. by rewrite Hm. Qed.

Lemma Mpereira_MapHandler_nil_miss m fallback r w :
  m !! URL_Path r = None → Mpereira.MapHandler m nilDB fallback r w = fallback r w.
Proof. intros Hm. unfold Mpereira.MapHandler. case_decide; [done|]. by rewrite Hm. Qed.

(** A chain of two map-only handlers answers from the second map when the
    path is only there. *)
Lemma Part003_chain_static A B dflt r w u :
  A !! URL_Path r = None → B !! URL_Path r = Some u →
  Part003.MapHandler A (Part003.MapHandler B dflt) r w
    = http_Redirect u StatusPermanentRedirect w.
Proof.
  intros HA HB. rewrite Part003_MapHandler_miss by done.
  by apply Part003_MapHandler_hit.
Qed.

Lemma Part001_chain_static A B dflt r w u :
  A !! URL_Path r = None → B !! URL_Path r = Some u →
  Part001.MapHandler A (Part001.MapHandler B dflt) r w = http_Redirect u StatusFound w.
Proof.
  intros HA HB. rewrite Part001_MapHandler_miss by done.
  by apply Part001_MapHandler_hit.
Qed.

(** ** Building the map *)

Lemma buildMap_snoc l x : buildMap (l ++ [x]) = <[Path x := Url x]> (buildMap l).
Proof. unfold buildMap. by rewrite foldl_snoc. Qed.

Lemma buildMap_lookup_last l1 x l2 :
  (∀ y, y ∈ l2 → Path y ≠ Path x) →
  buildMap (l1 ++ x :: l2) !! Path x = Some (Url x).
Proof.
  induction l2 as [|z l2 IH] using rev_ind; intros Hlater.
  - rewrite buildMap_snoc. apply lookup_insert_eq.
  - rewrite app_comm_cons, app_assoc, buildMap_snoc.
    rewrite lookup_insert_ne.
    + apply IH. intros y Hy. apply Hlater. set_solver.
    + apply Hlater. set_solver.
Qed.

Lemma buildMap_lookup_none l p :
  (∀ y, y ∈ l → Path y ≠ p) → buildMap l !! p = None.
Proof.
  induction l as [|z l IH] using rev_ind; intros Hl; [done|].
  rewrite buildMap_snoc, lookup_insert_ne.
  - apply IH. intros y Hy. apply Hl. set_solver.
  - apply Hl. set_solver.
Qed.

Lemma buildMapFromJson_snoc l x :
  buildMapFromJson (mkPathUrlObjJson (l ++ [x]))
    = <[unit_Path x := unit_URL x]> (buildMapFromJson (mkPathUrlObjJson l)).
Proof. unfold buildMapFromJson. simpl. by rewrite foldl_snoc. Qed.

Lemma buildMapFromJson_lookup_last l1 x l2 :
  (∀ y, y ∈ l2 → unit_Path y ≠ unit_Path x) →
  buildMapFromJson (mkPathUrlObjJson (l1 ++ x :: l2)) !! unit_Path x = Some (unit_URL x).
Proof.
  induction l2 as [|z l2 IH] using rev_ind; intros Hlater.
  - rewrite buildMapFromJson_snoc. apply lookup_insert_eq.
  - rewrite app_comm_cons, app_assoc, buildMapFromJson_snoc.
    rewrite lookup_insert_ne.
    + apply IH. intros y Hy. apply Hlater. set_solver.
    + apply Hlater. set_solver.
Qed.

(** C5: building the map is a left-to-right fold of insertions, so the last
    pair of a path decides its url and a repeated path is no error: a
    sequence with (/a, x) and later (/a, y) maps /a to y. *)
Theorem C5_buildMap_last_pair_wins :
  (∀ l x, buildMap (l ++ [x]) = <[Path x := Url x]> (buildMap l)) ∧
  buildMap [] = ∅ ∧
  (∀ l1 x l2, (∀ y, y ∈ l2 → Path y ≠ Path x) →
     buildMap (l1 ++ x :: l2) !! Path x = Some (Url x)) ∧
  (∀ l1 x l2, (∀ y, y ∈ l2 → unit_Path y ≠ unit_Path x) →
     buildMapFromJson (mkPathUrlObjJson (l1 ++ x :: l2)) !! unit_Path x
       = Some (unit_URL x)) ∧
  (∀ l1 l2 l3 p x y, (∀ z, z ∈ l3 → Path z ≠ p) →
     buildMap (l1 ++ mkPathUrlObj p x :: l2 ++ mkPathUrlObj p y :: l3) !! p = Some y) ∧
  (∀ x y, buildMap [mkPathUrlObj "/a" x; mkPathUrlObj "/a" y] !! "/a" = Some y).
Proof.
  split_and!.
  - apply buildMap_snoc.
  - done.
  - apply buildMap_lookup_last.
  - apply buildMapFromJson_lookup_last.
  - intros l1 l2 l3 p x y Hl3.
    rewrite app_comm_cons, app_assoc.
    by apply (buildMap_lookup_last _ (mkPathUrlObj p y)).
  - intros x y. apply (buildMap_lookup_last [mkPathUrlObj "/a" x] (mkPathUrlObj "/a" y) []).
    intros z Hz. by apply elem_of_nil in Hz.
Qed.

Lemma C5_buildMap_last_pair_wins_witness :
  buildMap ([mkPathUrlObj "/a" "x"] ++ mkPathUrlObj "/a" "y" :: [mkPathUrlObj "/b" "z"])
    !! "/a" = Some "y".
Proof.
  destruct C5_buildMap_last_pair_wins as (_ & _ & Hlast & _).
  apply (Hlast [mkPathUrlObj "/a" "x"] (mkPathUrlObj "/a" "y") [mkPathUrlObj "/b" "z"]).
  intros y Hy. apply list_elem_of_singleton in Hy. subst y. simpl. discriminate.
Defined.

(** ** The store-backed branch *)

(** With an open database and the bucket in place, the handler redirects to
    whatever the bucket holds for the path, the empty string when it holds
    nothing; the fallback and the map play no part. *)
Lemma Mpereira_MapHandler_store m fallback r w bk :
  bolt.opened (store w) = true →
  bolt.buckets (store w) !! PathRedirect = Some bk →
  Mpereira.MapHandler m theDB fallback r w
    = Done tt (mkWorld (files w) (store w)
                 (resp w ++ [EvRedirect (default nilstr (bk !! URL_Path r))
                               StatusPermanentRedirect])
                 (stdout w ++ ["just read: " +:+ default nilstr (bk !! URL_Path r)])).
Proof.
  intros Hopen Hbk. unfold Mpereira.MapHandler, DB_View.
  case_decide; [|done]. run_monad. rewrite Hopen. simpl. rewrite Hbk. simpl. by rewrite ?Hbk.
Qed.

Lemma Mpereira_MapHandler_no_bucket m fallback r w :
  bolt.opened (store w) = true →
  bolt.buckets (store w) !! PathRedirect = None →
  Mpereira.MapHandler m theDB fallback r w = Panicked NilDereference w.
Proof.
  intros Hopen Hbk. unfold Mpereira.MapHandler, DB_View.
  case_decide; [|done]. run_monad. rewrite Hopen. simpl. rewrite Hbk. simpl. by rewrite ?Hbk.
Qed.

Lemma Mpereira_MapHandler_closed m fallback r w :
  bolt.opened (store w) = false →
  Mpereira.MapHandler m theDB fallback r w = fallback r w.
Proof.
  intros Hopen. unfold Mpereira.MapHandler, DB_View.
  case_decide; [|done]. run_monad. by rewrite Hopen.
Qed.

Lemma Part002_MapHandler_store m fallback r w bk :
  bolt.opened (store w) = true →
  bolt.buckets (store w) !! PathRedirect = Some bk →
  Part002.MapHandler m theDB fallback r w
    = http_Redirect (default nilstr (bk !! URL_Path r)) StatusPermanentRedirect w.
Proof.
  intros Hopen Hbk. unfold Part002.MapHandler, DB_View.
  case_decide; [|done]. run_monad. rewrite Hopen. simpl. rewrite Hbk. simpl. by rewrite ?Hbk.
Qed.

Lemma Part002_MapHandler_no_bucket m fallback r w :
  bolt.opened (store w) = true →
  bolt.buckets (store w) !! PathRedirect = None →
  Part002.MapHandler m theDB fallback r w = Panicked NilDereference w.
Proof.
  intros Hopen Hbk. unfold Part002.MapHandler, DB_View.
  case_decide; [|done]. run_monad. rewrite Hopen. simpl. rewrite Hbk. simpl. by rewrite ?Hbk.
Qed.

Lemma Part002_MapHandler_closed m fallback r w :
  bolt.opened (store w) = false →
  Part002.MapHandler m theDB fallback r w = fallback r w.
Proof.
  intros Hopen. unfold Part002.MapHandler, DB_View.
  case_decide; [|done]. run_monad. by rewrite Hopen.
Qed.

(** [DBHandler] after a successful seeding. *)
Lemma Part001_DBHandler_seeded {env : GoEnv} fallback r w w' bk :
  Part001.loadDB theDB w = Done None w' →
  bolt.opened (store w') = true →
  bolt.buckets (store w') !! PathRedirect = Some bk →
  Part001.DBHandler theDB fallback r w
    = Done tt (mkWorld (files w') (store w')
                 (resp w' ++ [EvRedirect (default nilstr (bk !! URL_Path r))
                                StatusPermanentRedirect])
                 (stdout w' ++ ["path deducted: " +:+ URL_Path r])).
Proof.
  intros Hload Hopen Hbk. unfold Part001.DBHandler, DB_View.
  unfold mbind at 1, M_bind. rewrite Hload.
  case_decide; [|done]. run_monad. rewrite Hopen. simpl. rewrite Hbk. simpl. rewrite ?Hbk. simpl.
  by destruct (bk !! URL_Path r).
Qed.

Lemma Part001_DBHandler_seed_error {env : GoEnv} db fallback r w w' e :
  Part001.loadDB db w = Done (Some e) w' →
  Part001.DBHandler db fallback r w = Panicked (PanicError e) w'.
Proof.
  intros Hload. unfold Part001.DBHandler.
  unfold mbind at 1, M_bind. by rewrite Hload.
Qed.

Lemma Part001_DBHandler_nil {env : GoEnv} fallback r w :
  Part001.DBHandler nilDB fallback r w = Printf ("path deducted: " +:+ URL_Path r) w.
Proof. reflexivity. Qed.

(** ** The update transaction *)

Lemma Bucket_Put_writable name k v w tx bk :
  bolt.writable tx = true →
  bolt.root tx !! name = Some bk →
  Bucket_Put (Some name) k v (w, tx)
    = Done (put_error k v)
        (w, bolt.mkTx true (<[name := put_pure bk (k, v)]> (bolt.root tx))).
Proof.
  intros Hw Hbk. destruct tx as [wr rt]. simpl in *. subst wr.
  unfold Bucket_Put, put_pure, put_error. simpl.
  repeat case_decide; repeat case_match; simplify_eq; rewrite ?Hbk; simpl;
    rewrite ?(insert_id _ _ _ Hbk); done.
Qed.

(** The loop leaves the world alone, never panics on a live bucket, and
    answers with the error of the last [Put] only. *)
Lemma range_Put_writable name kvs err w tx bk :
  bolt.writable tx = true →
  bolt.root tx !! name = Some bk →
  range_Put (Some name) kvs err (w, tx)
    = Done (last_put_error err kvs)
        (w, bolt.mkTx true (<[name := foldl put_pure bk kvs]> (bolt.root tx))).
Proof.
  revert err tx bk. induction kvs as [|[k v] kvs IH]; intros err tx bk Hw Hbk.
  - simpl. destruct tx as [wr rt]. simpl in *. subst wr.
    by rewrite insert_id.
  - cbn [range_Put]. unfold mbind, M_bind.
    rewrite (Bucket_Put_writable _ _ _ _ _ bk) by done.
    rewrite (IH _ _ (put_pure bk (k, v))); [|done|simpl; by rewrite lookup_insert_eq].
    simpl. by rewrite insert_insert_eq.
Qed.

Lemma Tx_CreateBucketIfNotExists_writable w rt :
  Tx_CreateBucketIfNotExists PathRedirect (w, bolt.mkTx true rt)
    = Done (Some PathRedirect, None)
        (w, bolt.mkTx true (<[PathRedirect := default ∅ (rt !! PathRedirect)]> rt)).
Proof.
  unfold Tx_CreateBucketIfNotExists. simpl.
  destruct (rt !! PathRedirect) eqn:Hrt; simpl; [|done].
  by rewrite insert_id.
Qed.

(** The body shared by the seeder and by mpereira's [JSONHandler]. *)
Lemma upsert_body {env : GoEnv} pathMap w rt :
  ('(b, err) ← Tx_CreateBucketIfNotExists PathRedirect;
   range_Put b (range_map pathMap) err) (w, bolt.mkTx true rt)
  = Done (last_put_error None (range_map pathMap))
      (w, bolt.mkTx true
            (<[PathRedirect := foldl put_pure (default ∅ (rt !! PathRedirect))
                                 (range_map pathMap)]> rt)).
Proof.
  unfold mbind, M_bind. rewrite Tx_CreateBucketIfNotExists_writable.
  rewrite (range_Put_writable _ _ _ _ _ (default ∅ (rt !! PathRedirect)));
    [|done|simpl; by rewrite lookup_insert_eq].
  simpl. by rewrite insert_insert_eq.
Qed.

Lemma foldl_put_pure_other kvs bk p :
  p ∉ kvs.*1 → foldl put_pure bk kvs !! p = bk !! p.
Proof.
  revert bk. induction kvs as [|[k v] kvs IH]; intros bk Hp; [done|].
  simpl in *. apply not_elem_of_cons in Hp as [Hne Hp].
  rewrite IH by done.
  unfold put_pure. simpl. case_match; [done|].
  by rewrite lookup_insert_ne.
Qed.

Lemma foldl_put_pure_lookup kvs bk p u :
  NoDup kvs.*1 → (p, u) ∈ kvs → put_error p u = None →
  foldl put_pure bk kvs !! p = Some u.
Proof.
  revert bk. induction kvs as [|[k v] kvs IH]; intros bk Hnd Hin Hok.
  - by apply elem_of_nil in Hin.
  - simpl in *. apply NoDup_cons in Hnd as [Hk Hnd].
    apply elem_of_cons in Hin as [Heq|Hin].
    + simplify_eq. rewrite foldl_put_pure_other by done.
      unfold put_pure. simpl. rewrite Hok. apply lookup_insert_eq.
    + by apply IH.
Qed.

Lemma last_put_error_all_ok kvs err :
  err = None → (∀ kv, kv ∈ kvs → put_error kv.1 kv.2 = None) →
  last_put_error err kvs = None.
Proof.
  revert err. induction kvs as [|kv kvs IH]; intros err Herr Hall; [done|].
  unfold last_put_error in *. simpl. apply IH; [|set_solver].
  apply Hall. set_solver.
Qed.

Lemma last_put_error_snoc kvs err kv :
  last_put_error err (kvs ++ [kv]) = put_error kv.1 kv.2.
Proof. unfold last_put_error. by rewrite foldl_snoc. Qed.

(** *** The seeder of [part_001] *)

Section seeder.
Context {env : GoEnv}.

Lemma Part001_jsonReader_world filePath w :
  ∃ res, Part001.jsonReader filePath w = Done res w.
Proof.
  unfold Part001.jsonReader. case_decide; [|by eexists].
  unfold mbind, M_bind, ioutil_ReadFile, gets.
  destruct (files w !! filePath); simpl; [|by eexists].
  destruct (parseJSON s) as [parsed [e|]]; by eexists.
Qed.

Lemma Part001_jsonReader_missing filePath w :
  filePath ≠ nilstr → files w !! filePath = None →
  Part001.jsonReader filePath w = Done (∅, Some (ErrNotExist filePath)) w.
Proof.
  intros Hne Hf. unfold Part001.jsonReader. case_decide; [|done].
  unfold mbind, M_bind, ioutil_ReadFile, gets. by rewrite Hf.
Qed.

Lemma Part001_jsonReader_empty_path w :
  Part001.jsonReader nilstr w = Done (∅, None) w.
Proof. reflexivity. Qed.

Lemma Part001_jsonReader_read filePath w content :
  filePath ≠ nilstr → files w !! filePath = Some content →
  Part001.jsonReader filePath w
    = Done (match json_Unmarshal content with
            | (_, Some e) => (∅, Some e)
            | (parsed, None) => (buildMapFromJson parsed, None)
            end) w.
Proof.
  intros Hne Hf. unfold Part001.jsonReader. case_decide; [|done].
  unfold mbind, M_bind, ioutil_ReadFile, gets. rewrite Hf. simpl.
  unfold parseJSON. by destruct (json_Unmarshal content) as [parsed [e|]].
Qed.

Lemma Part001_loadDB_nil w : Part001.loadDB nilDB w = Done None w.
Proof. reflexivity. Qed.

Lemma Part001_loadDB_closed w :
  bolt.opened (store w) = false →
  Part001.loadDB theDB w = Done (Some ErrDatabaseNotOpen) w.
Proof.
  intros Hopen. unfold Part001.loadDB, DB_Update. case_decide; [|done].
  by rewrite Hopen.
Qed.

(** What one run of the seeder does on an open database. *)
Lemma Part001_loadDB_open w :
  bolt.opened (store w) = true →
  Part001.loadDB theDB w =
    match Part001.jsonReader conf_json w with
    | Done (_, Some e) _ => Done (Some e) w
    | Done (pathMap, None) _ =>
        match last_put_error None (range_map pathMap) with
        | Some e => Done (Some e) w
        | None =>
            Done None
              (commit w (bolt.mkTx true
                 (<[PathRedirect :=
                      foldl put_pure
                        (default ∅ (bolt.buckets (store w) !! PathRedirect))
                        (range_map pathMap)]> (bolt.buckets (store w)))))
        end
    | Panicked v _ => Panicked v w
    end.
Proof.
  intros Hopen. unfold Part001.loadDB, DB_Update. case_decide; [|done].
  rewrite Hopen. unfold mbind at 1, M_bind at 1, inWorld.
  destruct (Part001_jsonReader_world conf_json w) as [[pathMap err] Hr].
  rewrite Hr. destruct err as [e|]; [done|].
  rewrite upsert_body. by destruct (last_put_error _ _).
Qed.

Lemma Part001_loadDB_missing_file w :
  bolt.opened (store w) = true → files w !! conf_json = None →
  Part001.loadDB theDB w = Done (Some (ErrNotExist conf_json)) w.
Proof.
  intros Hopen Hf. rewrite Part001_loadDB_open by done.
  by rewrite Part001_jsonReader_missing.
Qed.

(** The seeder never panics; a failure leaves the world as it was and a
    success leaves an open database holding the bucket. *)
Lemma Part001_loadDB_cases db w :
  (∃ e, Part001.loadDB db w = Done (Some e) w) ∨
  (db = nilDB ∧ Part001.loadDB db w = Done None w) ∨
  (∃ w' bk, db = theDB ∧ Part001.loadDB db w = Done None w' ∧
            bolt.opened (store w') = true ∧
            bolt.buckets (store w') !! PathRedirect = Some bk).
Proof.
  destruct db; [right; left; by split|].
  destruct (bolt.opened (store w)) eqn:Hopen.
  - rewrite Part001_loadDB_open by done.
    destruct (Part001_jsonReader_world conf_json w) as [[pathMap err] Hr].
    rewrite Hr. destruct err as [e|]; [left; by eexists|].
    destruct (last_put_error _ _) as [e|]; [left; by eexists|].
    right; right. eexists _, _. split_and!; [done|done|done|].
    simpl. apply lookup_insert_eq.
  - left. eexists. by apply Part001_loadDB_closed.
Qed.

(** The fallback of [DBHandler] is never run: the handler behaves the
    same whatever fallback it was given. *)
Lemma Part001_DBHandler_ignores_fallback db fb1 fb2 r w :
  Part001.DBHandler db fb1 r w = Part001.DBHandler db fb2 r w.
Proof.
  destruct (Part001_loadDB_cases db w)
    as [[e He]|[[-> _]|(w' & bk & -> & Hload & Hopen & Hbk)]].
  - by rewrite !(Part001_DBHandler_seed_error _ _ _ _ _ _ He).
  - by rewrite !Part001_DBHandler_nil.
  - by rewrite !(Part001_DBHandler_seeded _ _ _ _ _ Hload Hopen Hbk).
Qed.

End seeder.

(** *** The update transaction of mpereira's [JSONHandler] *)

Section mpereira_upsert.
Context {env : GoEnv}.

(** Once the input has parsed, the constructor answers with a handler and
    a nil error whatever the transaction did: the pairs are committed
    when the last [Put] succeeded and dropped otherwise. *)
Lemma Mpereira_JSONHandler_open json parsed fallback w :
  json_Unmarshal json = (parsed, None) →
  bolt.opened (store w) = true →
  Mpereira.JSONHandler json nilstr theDB fallback w =
    Done (Some (Mpereira.MapHandler (buildMapFromJson parsed) theDB fallback), None)
      (match last_put_error None (range_map (buildMapFromJson parsed)) with
       | Some _ => w
       | None =>
           commit w (bolt.mkTx true
             (<[PathRedirect :=
                  foldl put_pure
                    (default ∅ (bolt.buckets (store w) !! PathRedirect))
                    (range_map (buildMapFromJson parsed))]>
                (bolt.buckets (store w))))
       end).
Proof.
  intros Hparse Hopen. unfold Mpereira.JSONHandler.
  case_decide; [done|]. unfold parseJSON. rewrite Hparse.
  unfold mbind at 1, M_bind at 1, DB_Update. rewrite Hopen, upsert_body.
  by destruct (last_put_error _ _).
Qed.

Lemma range_map_NoDup (m : gmap string string) : NoDup (range_map m).*1.
Proof. rewrite range_map_perm. apply NoDup_fst_map_to_list. Qed.

Lemma range_map_elem (m : gmap string string) k v :
  (k, v) ∈ range_map m ↔ m !! k = Some v.
Proof. rewrite range_map_perm. apply elem_of_map_to_list. Qed.

(** When every [Put] of the batch succeeds, every pair of the map is
    served from the store with its own url. *)
Lemma Mpereira_upsert_then_resolve json parsed fallback w p u :
  json_Unmarshal json = (parsed, None) →
  bolt.opened (store w) = true →
  (∀ k v, buildMapFromJson parsed !! k = Some v → put_error k v = None) →
  buildMapFromJson parsed !! p = Some u →
  ∃ h w', Mpereira.JSONHandler json nilstr theDB fallback w = Done (Some h, None) w' ∧
          h (mkRequest p) w'
            = Done tt (mkWorld (files w') (store w')
                         (resp w' ++ [EvRedirect u StatusPermanentRedirect])
                         (stdout w' ++ ["just read: " +:+ u])).
Proof.
  intros Hparse Hopen Hvalid Hp.
  eexists _, _. split; [by apply Mpereira_JSONHandler_open|].
  rewrite last_put_error_all_ok; [|done|].
  2:{ intros [k v] Hkv. apply Hvalid. by apply range_map_elem. }
  erewrite Mpereira_MapHandler_store; [|done|simpl; apply lookup_insert_eq].
  simpl. rewrite (foldl_put_pure_lookup _ _ p u); [done|..].
  - apply range_map_NoDup.
  - by apply range_map_elem.
  - by apply Hvalid.
Qed.

End mpereira_upsert.

Lemma Mpereira_upsert_then_resolve_witness :
  ∃ h w', Mpereira.JSONHandler (env := go_sample) (json_doc units_ok) nilstr theDB hello w_fresh
            = Done (Some h, None) w' ∧
          h (mkRequest "/urlshort") w'
            = Done tt (mkWorld (files w') (store w')
                         (resp w' ++ [EvRedirect gophercises StatusPermanentRedirect])
                         (stdout w' ++ ["just read: " +:+ gophercises])).
Proof.
  apply (Mpereira_upsert_then_resolve (env := go_sample) (json_doc units_ok)
           (mkPathUrlObjJson units_ok)); [by vm_compute|done| |by vm_compute].
  intros k v Hkv. change (buildMapFromJson (mkPathUrlObjJson units_ok))
    with (<[ "/urlshort" := gophercises ]> (∅ : gmap string string)) in Hkv.
  apply lookup_insert_Some in Hkv as [[<- <-]|[_ Hkv]]; [by vm_compute|].
  by rewrite lookup_empty in Hkv.
Defined.

(** ** The claims on the store-backed handlers, run on concrete worlds *)

(** C1: a path that is neither in the map nor in the store should reach the
    fallback once and produce no redirect.  The store-backed handlers do
    otherwise: on the seeded database, a request for /unknown is answered
    with a 308 redirect to the empty url, whatever the fallback is. *)
Theorem C1_store_miss_redirects_to_empty_url :
  ∀ (m : gmap string string) (fallback : Handler),
    bolt.buckets (store w_seeded) !! PathRedirect ≫= (λ bk, bk !! "/unknown") = None ∧
    Mpereira.MapHandler m theDB fallback (mkRequest "/unknown") w_seeded
      = Done tt (mkWorld (files w_seeded) (store w_seeded)
                   [EvRedirect nilstr StatusPermanentRedirect] ["just read: "]) ∧
    Part001.DBHandler (env := go_sample) theDB fallback (mkRequest "/unknown") w_seeded
      = Done tt (mkWorld (files w_seeded) (store w_seeded)
                   [EvRedirect nilstr StatusPermanentRedirect]
                   ["path deducted: /unknown"]).
Proof.
  intros m fallback. split_and!.
  - by vm_compute.
  - by rewrite (Mpereira_MapHandler_store _ _ _ _ {[ "/urlshort" := gophercises ]}).
  - rewrite (Part001_DBHandler_ignores_fallback (env := go_sample) _ fallback hello).
    by vm_compute.
Qed.

(** C4: without the bucket PathRedirect, or without the key, the resolution
    should fall back and neither crash nor redirect.  On an open database
    without the bucket the handlers dereference the nil bucket and panic; on
    an empty bucket they redirect to the empty url. *)
Theorem C4_missing_bucket_panics_missing_key_redirects :
  ∀ (m : gmap string string) (fallback : Handler) (r : Request),
    Mpereira.MapHandler m theDB fallback r w_fresh = Panicked NilDereference w_fresh ∧
    Part002.MapHandler m theDB fallback r w_fresh = Panicked NilDereference w_fresh ∧
    Mpereira.MapHandler m theDB fallback r w_bucket
      = Done tt (mkWorld ∅ (store w_bucket)
                   [EvRedirect nilstr StatusPermanentRedirect] ["just read: "]) ∧
    Part002.MapHandler m theDB fallback r w_bucket
      = Done tt (mkWorld ∅ (store w_bucket)
                   [EvRedirect nilstr StatusPermanentRedirect] []).
Proof.
  intros m fallback r. split_and!.
  - by apply Mpereira_MapHandler_no_bucket.
  - by apply Part002_MapHandler_no_bucket.
  - rewrite (Mpereira_MapHandler_store _ _ _ _ ∅); [|done|done].
    by rewrite lookup_empty.
  - rewrite (Part002_MapHandler_store _ _ _ _ ∅); [|done|done].
    by rewrite lookup_empty.
Qed.

(** C6: in a chain of two sources, a path found only in the second one
    should be redirected to the second one's target.  With the store in
    front of the map of [main], as [main] of mpereira composes them, the
    request for /urlshort-godoc never reaches the map: it is redirected to
    the empty url. *)
Theorem C6_store_in_front_hides_the_map :
  ∀ dflt : Handler,
    pathsToUrls_main !! "/urlshort-godoc"
      = Some "https://godoc.org/github.com/gophercises/urlshort" ∧
    bolt.buckets (store w_seeded) !! PathRedirect ≫= (λ bk, bk !! "/urlshort-godoc")
      = None ∧
    Part001.DBHandler (env := go_sample) theDB
        (Part001.MapHandler pathsToUrls_main dflt) (mkRequest "/urlshort-godoc") w_seeded
      = Done tt (mkWorld (files w_seeded) (store w_seeded)
                   [EvRedirect nilstr StatusPermanentRedirect]
                   ["path deducted: /urlshort-godoc"]) ∧
    Mpereira.MapHandler ∅ theDB
        (Mpereira.MapHandler pathsToUrls_main nilDB dflt) (mkRequest "/urlshort-godoc")
        w_seeded
      = Done tt (mkWorld (files w_seeded) (store w_seeded)
                   [EvRedirect nilstr StatusPermanentRedirect] ["just read: "]).
Proof.
  intros dflt. split_and!.
  - by vm_compute.
  - by vm_compute.
  - rewrite (Part001_DBHandler_ignores_fallback (env := go_sample) _ _ hello).
    by vm_compute.
  - by rewrite (Mpereira_MapHandler_store _ _ _ _ {[ "/urlshort" := gophercises ]}).
Qed.

(** C2: a pair (p, u) written by the batch upsert should resolve to u.
    [JSONHandler] of [part_002] stores the JSON encoding of the whole pair
    under p, and the handler it returns redirects to that encoding. *)
Theorem C2_part002_resolves_to_the_encoded_pair :
  ∀ fallback : Handler,
    let encoded := json_unit (mkPathUrlUnit "/urlshort" gophercises) in
    let w1 := mkWorld ∅ (bolt.mkDB true {[ PathRedirect := {[ "/urlshort" := encoded ]} ]})
                [] [] in
    encoded ≠ gophercises ∧
    ∃ h, Part002.JSONHandler (env := go_sample) (json_doc units_ok) nilstr theDB
           fallback w_bucket = Done (Some h, None) w1 ∧
         h (mkRequest "/urlshort") w1
           = Done tt (mkWorld ∅ (store w1)
                        [EvRedirect encoded StatusPermanentRedirect] []).
Proof.
  intros fallback encoded w1. split; [by vm_compute|].
  exists (Part002.MapHandler (buildMapFromJson (mkPathUrlObjJson units_ok)) theDB fallback).
  split.
  - by vm_compute.
  - by rewrite (Part002_MapHandler_store _ _ _ _ {[ "/urlshort" := encoded ]}).
Qed.

(** C3: a batch in which one [Put] fails should be reported as failed and
    leave none of its pairs visible.  The loop keeps the error of the last
    [Put] only: with the pairs (empty path, x) and (/a, a), the empty key
    visited first, the seeder answers nil and /a is committed and served;
    [JSONHandler] answers a nil error even when the transaction failed. *)
Theorem C3_failed_put_neither_reported_nor_rolled_back :
  ∀ fallback : Handler,
    let w1 := mkWorld (files w_emptykey)
                (bolt.mkDB true {[ PathRedirect := {[ "/a" := "https://a.example" ]} ]})
                [] [] in
    let w2 := mkWorld ∅ (store w1) [] [] in
    put_error nilstr "https://x.example" = Some ErrKeyRequired ∧
    Part001.loadDB (env := go_sample_rev) theDB w_emptykey = Done None w1 ∧
    (∃ h, Mpereira.JSONHandler (env := go_sample_rev) (json_doc units_emptykey) nilstr
            theDB fallback w_fresh = Done (Some h, None) w2 ∧
          h (mkRequest "/a") w2
            = Done tt (mkWorld ∅ (store w2)
                         [EvRedirect "https://a.example" StatusPermanentRedirect]
                         ["just read: https://a.example"])) ∧
    (∃ h, Mpereira.JSONHandler (env := go_sample) (json_doc units_onlyempty) nilstr
            theDB fallback w_fresh = Done (Some h, None) w_fresh).
Proof.
  intros fallback w1 w2. split_and!.
  - by vm_compute.
  - by vm_compute.
  - exists (Mpereira.MapHandler (buildMapFromJson (mkPathUrlObjJson units_emptykey))
              theDB fallback).
    split; [by vm_compute|].
    by rewrite (Mpereira_MapHandler_store _ _ _ _ {[ "/a" := "https://a.example" ]}).
  - eexists. by vm_compute.
Qed.

(** ** Seeding failures *)

(** C7 as stated fails: with the seed file missing, a request to
    [DBHandler] ends in a panic carrying the read error; nothing is written
    to the response and the fallback is not run. *)
Lemma C7_missing_seed_file_panics :
  Part001.jsonReader (env := go_sample) conf_json w_fresh
    = Done (∅, Some (ErrNotExist conf_json)) w_fresh ∧
  Part001.DBHandler (env := go_sample) theDB hello (mkRequest "/urlshort") w_fresh
    = Panicked (PanicError (ErrNotExist conf_json)) w_fresh ∧
  Part001.DBHandler (env := go_sample) theDB hello (mkRequest "/urlshort") w_fresh
    ≠ hello (mkRequest "/urlshort") w_fresh.
Proof. split_and!; by vm_compute. Qed.

(** C7, amended: in [DBHandler] a seeding failure is not recovered:
    whenever the seeder returns an error the request panics with that
    error, the world (response included) is left as it was and the fallback
    is not run.  This is so in particular when the seed file cannot be read
    (the seeder reports an absent source as an error, not as a no-op) and
    when the database is not open.  For a nil database handle the seeder
    does nothing and returns no error, and [jsonReader] returns no map and
    no error for an empty file path.  In [MapHandler] of mpereira's
    revision and of [part_002], a read transaction that fails because the
    database is not open is recovered by running the fallback, whose outcome
    is the outcome of the request. *)
Theorem C7_seed_failure_panics_view_failure_falls_back {env : GoEnv} :
  (∀ db (fallback : Handler) r w w' e,
     Part001.loadDB db w = Done (Some e) w' →
     w' = w ∧ Part001.DBHandler db fallback r w = Panicked (PanicError e) w) ∧
  (∀ (fallback : Handler) r w,
     bolt.opened (store w) = true → files w !! conf_json = None →
     Part001.jsonReader conf_json w = Done (∅, Some (ErrNotExist conf_json)) w ∧
     Part001.loadDB theDB w = Done (Some (ErrNotExist conf_json)) w ∧
     Part001.DBHandler theDB fallback r w
       = Panicked (PanicError (ErrNotExist conf_json)) w) ∧
  (∀ (fallback : Handler) r w,
     bolt.opened (store w) = false →
     Part001.loadDB theDB w = Done (Some ErrDatabaseNotOpen) w ∧
     Part001.DBHandler theDB fallback r w
       = Panicked (PanicError ErrDatabaseNotOpen) w) ∧
  (∀ w, Part001.loadDB nilDB w = Done None w ∧
        Part001.jsonReader nilstr w = Done (∅, None) w) ∧
  (∀ (m : gmap string string) (fallback : Handler) r w,
     bolt.opened (store w) = false →
     Mpereira.MapHandler m theDB fallback r w = fallback r w ∧
     Part002.MapHandler m theDB fallback r w = fallback r w).
Proof.
  split_and!.
  - intros db fallback r w w' e Hload.
    assert (w' = w) as ->.
    { destruct (Part001_loadDB_cases db w)
        as [[e' He]|[[_ He]|(w'' & bk & _ & He & _)]]; congruence. }
    split; [done|]. by apply Part001_DBHandler_seed_error.
  - intros fallback r w Hopen Hf.
    pose proof (Part001_loadDB_missing_file w Hopen Hf) as Hload.
    split_and!; [by apply Part001_jsonReader_missing|done|].
    by apply Part001_DBHandler_seed_error.
  - intros fallback r w Hclosed.
    pose proof (Part001_loadDB_closed w Hclosed) as Hload.
    split; [done|]. by apply Part001_DBHandler_seed_error.
  - intros w. split; [apply Part001_loadDB_nil|apply Part001_jsonReader_empty_path].
  - intros m fallback r w Hopen. split.
    + by apply Mpereira_MapHandler_closed.
    + by apply Part002_MapHandler_closed.
Qed.

Lemma C7_seed_failure_panics_view_failure_falls_back_witness :
  Part001.DBHandler (env := go_sample) theDB hello (mkRequest "/urlshort") w_fresh
    = Panicked (PanicError (ErrNotExist conf_json)) w_fresh ∧
  Part001.DBHandler (env := go_sample) theDB hello (mkRequest "/urlshort") w_emptykey
    = Panicked (PanicError ErrKeyRequired) w_emptykey ∧
  Part001.DBHandler (env := go_sample) theDB hello (mkRequest "/urlshort")
      (mkWorld ∅ (bolt.mkDB false ∅) [] [])
    = Panicked (PanicError ErrDatabaseNotOpen) (mkWorld ∅ (bolt.mkDB false ∅) [] []) ∧
  Mpereira.MapHandler ∅ theDB hello (mkRequest "/urlshort")
      (mkWorld ∅ (bolt.mkDB false ∅) [] [])
    = hello (mkRequest "/urlshort") (mkWorld ∅ (bolt.mkDB false ∅) [] []).
Proof.
  destruct (C7_seed_failure_panics_view_failure_falls_back (env := go_sample))
    as (Hpanic & Hmissing & Hnotopen & _ & Hclosed).
  split_and!.
  - apply (Hmissing hello (mkRequest "/urlshort") w_fresh); reflexivity.
  - apply (Hpanic theDB hello (mkRequest "/urlshort") w_emptykey w_emptykey).
    by vm_compute.
  - apply (Hnotopen hello (mkRequest "/urlshort")). reflexivity.
  - apply Hclosed. reflexivity.
Defined.

(** ** Redirect status codes *)











(** ** Parse errors and the file-path argument *)

(** C9: when the decoding of the input fails, [parseJSON] (or [parseYAML])
    reports the error, and the constructor returns a nil handler with that
    error, whether the bytes came from the argument or from the file; the
    world is untouched, so no map was built and nothing reached the store,
    even when the decoder left a partly filled value. *)
Theorem C9_parse_error_gives_nil_handler {env : GoEnv} :
  (∀ json partial e, json_Unmarshal json = (partial, Some e) →
     parseJSON json = (partial, Some e) ∧
     ∀ db fallback w,
       Mpereira.JSONHandler json nilstr db fallback w = Done (None, Some e) w ∧
       ∀ other path, path ≠ nilstr → files w !! path = Some json →
         Mpereira.JSONHandler other path db fallback w = Done (None, Some e) w) ∧
  (∀ yaml partial e, yaml_Unmarshal yaml = (partial, Some e) →
     parseYAML yaml = (partial, Some e) ∧
     ∀ fallback w,
       Mpereira.YAMLHandler yaml nilstr fallback w = Done (None, Some e) w ∧
       ∀ other path, path ≠ nilstr → files w !! path = Some yaml →
         Mpereira.YAMLHandler other path fallback w = Done (None, Some e) w).
Proof.
  split.
  - intros json partial e Hfail.
    assert (parseJSON json = (partial, Some e)) as Hparse
      by (unfold parseJSON; by rewrite Hfail).
    split; [done|]. intros db fallback w. split.
    + unfold Mpereira.JSONHandler. case_decide; [done|]. by rewrite Hparse.
    + intros other path Hpath Hfile. unfold Mpereira.JSONHandler.
      case_decide; [|done].
      unfold mbind, M_bind, ioutil_ReadFile, gets. rewrite Hfile. simpl.
      by rewrite Hparse.
  - intros yaml partial e Hfail.
    assert (parseYAML yaml = (partial, Some e)) as Hparse
      by (unfold parseYAML; by rewrite Hfail).
    split; [done|]. intros fallback w. split.
    + unfold Mpereira.YAMLHandler. case_decide; [done|]. by rewrite Hparse.
    + intros other path Hpath Hfile. unfold Mpereira.YAMLHandler.
      case_decide; [|done].
      unfold mbind, M_bind, ioutil_ReadFile, gets. rewrite Hfile. simpl.
      by rewrite Hparse.
Qed.

Lemma C9_parse_error_gives_nil_handler_witness :
  let e := ErrCodec "json: cannot unmarshal number into Go struct field pathUrlUnit.path of type string" in
  parseJSON (env := go_sample) json_wrong_type
    = (mkPathUrlObjJson [mkPathUrlUnit nilstr nilstr], Some e) ∧
  Mpereira.JSONHandler (env := go_sample) json_wrong_type nilstr theDB hello w_bucket
    = Done (None, Some e) w_bucket ∧
  Mpereira.YAMLHandler (env := go_sample) yaml_wrong_type nilstr hello w_bucket
    = Done (None, Some (ErrCodec "yaml: unmarshal errors")) w_bucket.
Proof.
  intros e.
  destruct (C9_parse_error_gives_nil_handler (env := go_sample)) as [Hjson Hyaml].
  destruct (Hjson json_wrong_type (mkPathUrlObjJson [mkPathUrlUnit nilstr nilstr]) e)
    as [Hparse Hhandler]; [reflexivity|].
  destruct (Hyaml yaml_wrong_type [] (ErrCodec "yaml: unmarshal errors"))
    as [_ Hyhandler]; [reflexivity|].
  split_and!.
  - exact Hparse.
  - exact (proj1 (Hhandler theDB hello w_bucket)).
  - exact (proj1 (Hyhandler hello w_bucket)).
Defined.

(** C10: with a non-empty file path, the bytes argument has no influence:
    two calls that differ only in it give the same handler, error and
    world, and the handler and error are the same in any two worlds that
    hold the same content (or none) under that path. *)
Theorem C10_file_path_makes_bytes_irrelevant {env : GoEnv} :
  ∀ path, path ≠ nilstr →
    (∀ bytes1 bytes2 db fallback w,
       Mpereira.YAMLHandler bytes1 path fallback w
         = Mpereira.YAMLHandler bytes2 path fallback w ∧
       Part003.YAMLHandler bytes1 path fallback w
         = Part003.YAMLHandler bytes2 path fallback w ∧
       Mpereira.JSONHandler bytes1 path db fallback w
         = Mpereira.JSONHandler bytes2 path db fallback w ∧
       Part003.JSONHandler bytes1 path fallback w
         = Part003.JSONHandler bytes2 path fallback w) ∧
    (∀ bytes1 bytes2 fallback w1 w2,
       files w1 !! path = files w2 !! path →
       outcome (Mpereira.YAMLHandler bytes1 path fallback w1)
         = outcome (Mpereira.YAMLHandler bytes2 path fallback w2) ∧
       outcome (Part003.YAMLHandler bytes1 path fallback w1)
         = outcome (Part003.YAMLHandler bytes2 path fallback w2) ∧
       outcome (Part003.JSONHandler bytes1 path fallback w1)
         = outcome (Part003.JSONHandler bytes2 path fallback w2)).
Proof.
  intros path Hpath. split.
  - intros bytes1 bytes2 db fallback w.
    unfold Mpereira.YAMLHandler, Part003.YAMLHandler, Mpereira.JSONHandler,
      Part003.JSONHandler.
    by case_decide.
  - intros bytes1 bytes2 fallback w1 w2 Hfiles.
    unfold Mpereira.YAMLHandler, Part003.YAMLHandler, Part003.JSONHandler.
    case_decide; [|done].
    unfold mbind, M_bind, ioutil_ReadFile, gets. rewrite Hfiles.
    destruct (files w2 !! path) as [content|]; simpl; [|done].
    destruct (parseYAML content) as [parsedYaml [e|]];
      destruct (parseJSON content) as [parsedJson [e'|]]; done.
Qed.

Lemma C10_file_path_makes_bytes_irrelevant_witness :
  let w := mkWorld {[ "../conf.yaml" := yaml_ok ]} (bolt.mkDB true ∅) [] [] in
  Mpereira.YAMLHandler (env := go_sample) yaml_wrong_type "../conf.yaml" hello w
    = Mpereira.YAMLHandler (env := go_sample) yaml_ok "../conf.yaml" hello w ∧
  Part003.YAMLHandler (env := go_sample) yaml_wrong_type "../conf.yaml" hello w
    = Part003.YAMLHandler (env := go_sample) nilstr "../conf.yaml" hello w.
Proof.
  intros w.
  destruct (C10_file_path_makes_bytes_irrelevant (env := go_sample) "../conf.yaml")
    as [Hsame _]; [discriminate|].
  split.
  - apply (Hsame yaml_wrong_type yaml_ok theDB hello w).
  - apply (Hsame yaml_wrong_type nilstr theDB hello w).
Defined.

(** * Further properties of the handlers *)

(** ** What the upsert loop leaves in the bucket *)

Lemma foldl_put_pure_keeps kvs bk k :
  is_Some (bk !! k) → is_Some (foldl put_pure bk kvs !! k).
Proof.
  revert bk. induction kvs as [|[k' v'] kvs IH]; intros bk Hk; [done|].
  simpl. apply IH. unfold put_pure. simpl. case_match; [done|].
  destruct (decide (k' = k)) as [->|Hne].
  - rewrite lookup_insert_eq. by eexists.
  - by rewrite lookup_insert_ne.
Qed.

(** When every [Put] succeeds the loop computes the union of the map with
    the bucket, the map winning, in whatever order the pairs are visited. *)
Lemma foldl_put_pure_union (m bk : gmap string string) kvs :
  kvs ≡ₚ map_to_list m →
  (∀ k v, m !! k = Some v → put_error k v = None) →
  foldl put_pure bk kvs = m ∪ bk.
Proof.
  intros Hperm Hvalid.
  assert (NoDup kvs.*1) as Hnd by (rewrite Hperm; apply NoDup_fst_map_to_list).
  assert (∀ k v, (k, v) ∈ kvs ↔ m !! k = Some v) as Hel.
  { intros k v. rewrite Hperm. apply elem_of_map_to_list. }
  apply map_eq. intros p. rewrite lookup_union.
  destruct (m !! p) as [u|] eqn:Hp.
  - rewrite (foldl_put_pure_lookup kvs bk p u); [|done|by apply Hel|by apply Hvalid].
    by destruct (bk !! p).
  - rewrite foldl_put_pure_other.
    + by destruct (bk !! p).
    + intros Hin. apply list_elem_of_fmap in Hin as [[k v] [-> Hkv]].
      apply Hel in Hkv. simpl in *. congruence.
Qed.

Lemma last_put_error_valid {env : GoEnv} (m : gmap string string) :
  (∀ k v, m !! k = Some v → put_error k v = None) →
  last_put_error None (range_map m) = None.
Proof.
  intros Hvalid. apply last_put_error_all_ok; [done|].
  intros [k v] Hkv. apply Hvalid. by apply range_map_elem.
Qed.

(** ** The seeder and [DBHandler] of [part_001] *)

(** The seeder on an open database whose seed file decodes, every [Put]
    succeeding: the bucket becomes the union of the decoded map with the
    bucket as it was, and nothing else changes. *)
Lemma Part001_loadDB_valid {env : GoEnv} w content parsed :
  bolt.opened (store w) = true →
  files w !! conf_json = Some content →
  json_Unmarshal content = (parsed, None) →
  (∀ k v, buildMapFromJson parsed !! k = Some v → put_error k v = None) →
  Part001.loadDB theDB w
    = Done None
        (mkWorld (files w)
           (bolt.mkDB true
              (<[PathRedirect :=
                   buildMapFromJson parsed
                     ∪ default ∅ (bolt.buckets (store w) !! PathRedirect)]>
                 (bolt.buckets (store w))))
           (resp w) (stdout w)).
Proof.
  intros Hopen Hfile Hparse Hvalid.
  rewrite Part001_loadDB_open by done.
  rewrite (Part001_jsonReader_read _ _ content) by done. rewrite Hparse.
  rewrite last_put_error_valid by done.
  rewrite (foldl_put_pure_union (buildMapFromJson parsed)); [|apply range_map_perm|done].
  unfold commit. simpl. by rewrite Hopen.
Qed.

(** X1: [DBHandler] never runs its fallback: for every database handle,
    request and world, the outcome is the same whatever fallback was given. *)
Theorem X1_DBHandler_never_runs_fallback {env : GoEnv} :
  ∀ db (fallback1 fallback2 : Handler) r w,
    Part001.DBHandler db fallback1 r w = Part001.DBHandler db fallback2 r w.
Proof. intros. apply Part001_DBHandler_ignores_fallback. Qed.

(** X2: a request to [DBHandler] ends in exactly one of three ways: a panic
    carrying the seeder's error, with the world as it was; for a nil handle,
    nothing done to the response; otherwise exactly one call of
    [http.Redirect], with status 308, and nothing else done to the
    response. *)
Theorem X2_DBHandler_outcomes {env : GoEnv} :
  ∀ db (fallback : Handler) r w,
    (∃ e, Part001.loadDB db w = Done (Some e) w ∧
          Part001.DBHandler db fallback r w = Panicked (PanicError e) w) ∨
    (db = nilDB ∧
     Part001.DBHandler db fallback r w
       = Done tt (mkWorld (files w) (store w) (resp w)
                    (stdout w ++ ["path deducted: " +:+ URL_Path r]))) ∨
    (∃ w' url, db = theDB ∧ Part001.loadDB db w = Done None w' ∧
       resp w' = resp w ∧
       Part001.DBHandler db fallback r w
         = Done tt (mkWorld (files w') (store w')
                      (resp w ++ [EvRedirect url StatusPermanentRedirect])
                      (stdout w' ++ ["path deducted: " +:+ URL_Path r]))).
Proof.
  intros db fallback r w.
  destruct (Part001_loadDB_cases db w)
    as [[e He]|[[-> He]|(w' & bk & -> & Hload & Hopen & Hbk)]].
  - left. exists e. split; [done|]. by apply Part001_DBHandler_seed_error.
  - right; left. by split.
  - right; right. exists w', (default nilstr (bk !! URL_Path r)).
    assert (resp w' = resp w) as Hresp.
    { destruct (bolt.opened (store w)) eqn:Ho.
      - rewrite Part001_loadDB_open in Hload by done.
        destruct (Part001_jsonReader_world conf_json w) as [[pathMap err] Hr].
        rewrite Hr in Hload. destruct err as [e|]; [done|].
        destruct (last_put_error _ _); [done|]. by simplify_eq.
      - rewrite Part001_loadDB_closed in Hload by done. done. }
    split_and!; [done|done|done|].
    rewrite (Part001_DBHandler_seeded _ _ _ _ bk Hload Hopen Hbk). by rewrite Hresp.
Qed.

Lemma units_ok_valid k v :
  buildMapFromJson (mkPathUrlObjJson units_ok) !! k = Some v → put_error k v = None.
Proof.
  change (buildMapFromJson (mkPathUrlObjJson units_ok))
    with (<[ "/urlshort" := gophercises ]> (∅ : gmap string string)).
  intros Hkv. apply lookup_insert_Some in Hkv as [[<- <-]|[_ Hkv]]; [by vm_compute|].
  by rewrite lookup_empty in Hkv.
Qed.

(** X3: with an open database and a seed file that decodes into pairs the
    store accepts, [DBHandler] first merges the decoded map into the bucket
    (the file winning over what the bucket held) and then answers with one
    308 redirect to what the merged bucket holds for the path, the empty url
    when it holds nothing; a path of the seed file is redirected to the url
    the file gives it. *)
Theorem X3_DBHandler_serves_seed_merged_into_store {env : GoEnv} :
  ∀ (fallback : Handler) r w content parsed,
    bolt.opened (store w) = true →
    files w !! conf_json = Some content →
    json_Unmarshal content = (parsed, None) →
    (∀ k v, buildMapFromJson parsed !! k = Some v → put_error k v = None) →
    let merged := buildMapFromJson parsed
                    ∪ default ∅ (bolt.buckets (store w) !! PathRedirect) in
    Part001.DBHandler theDB fallback r w
      = Done tt (mkWorld (files w)
                   (bolt.mkDB true (<[PathRedirect := merged]> (bolt.buckets (store w))))
                   (resp w ++ [EvRedirect (default nilstr (merged !! URL_Path r))
                                 StatusPermanentRedirect])
                   (stdout w ++ ["path deducted: " +:+ URL_Path r])) ∧
    (∀ u, buildMapFromJson parsed !! URL_Path r = Some u →
          default nilstr (merged !! URL_Path r) = u).
Proof.
  intros fallback r w content parsed Hopen Hfile Hparse Hvalid merged. split.
  - rewrite (Part001_DBHandler_seeded fallback r w _ merged
               (Part001_loadDB_valid w content parsed Hopen Hfile Hparse Hvalid));
      [done|done|].
    simpl. apply lookup_insert_eq.
  - intros u Hu. unfold merged. by rewrite (lookup_union_Some_l _ _ _ _ Hu).
Qed.

Lemma X3_DBHandler_serves_seed_merged_into_store_witness :
  Part001.DBHandler (env := go_sample) theDB hello (mkRequest "/urlshort")
      (mkWorld {[ conf_json := json_doc units_ok ]}
         (bolt.mkDB true {[ PathRedirect := {[ "/old" := "https://old.example" ]} ]}) [] [])
    = Done tt (mkWorld {[ conf_json := json_doc units_ok ]}
                 (bolt.mkDB true
                    {[ PathRedirect := {[ "/urlshort" := gophercises;
                                          "/old" := "https://old.example" ]} ]})
                 [EvRedirect gophercises StatusPermanentRedirect]
                 ["path deducted: /urlshort"]).
Proof.
  pose proof (X3_DBHandler_serves_seed_merged_into_store (env := go_sample) hello
                (mkRequest "/urlshort")
                (mkWorld {[ conf_json := json_doc units_ok ]}
                   (bolt.mkDB true {[ PathRedirect := {[ "/old" := "https://old.example" ]} ]})
                   [] [])
                (json_doc units_ok) (mkPathUrlObjJson units_ok)
                eq_refl eq_refl eq_refl units_ok_valid) as [Hrun _].
  rewrite Hrun. by vm_compute.
Defined.

(** X4: a seeding that succeeds only adds to the bucket PathRedirect: the
    files, the response, stdout and every other bucket are as before, and
    every key the bucket held is still in it. *)
Theorem X4_seeder_never_deletes {env : GoEnv} :
  ∀ db w w', Part001.loadDB db w = Done None w' →
    files w' = files w ∧ resp w' = resp w ∧ stdout w' = stdout w ∧
    bolt.opened (store w') = bolt.opened (store w) ∧
    (∀ name, name ≠ PathRedirect →
       bolt.buckets (store w') !! name = bolt.buckets (store w) !! name) ∧
    (∀ bk k, bolt.buckets (store w) !! PathRedirect = Some bk → is_Some (bk !! k) →
       ∃ bk', bolt.buckets (store w') !! PathRedirect = Some bk' ∧ is_Some (bk' !! k)).
Proof.
  intros db w w' Hload. destruct db.
  - rewrite Part001_loadDB_nil in Hload. injection Hload as <-.
    split_and!; try done. intros bk k Hbk Hk. by exists bk.
  - destruct (bolt.opened (store w)) eqn:Ho.
    + rewrite Part001_loadDB_open in Hload by done.
      destruct (Part001_jsonReader_world conf_json w) as [[pathMap err] Hr].
      rewrite Hr in Hload. destruct err as [e|]; [done|].
      destruct (last_put_error _ _); [done|]. injection Hload as <-.
      simpl. split_and!; try done.
      * intros name Hname. by rewrite lookup_insert_ne.
      * intros bk k Hbk Hk. eexists. split; [apply lookup_insert_eq|].
        rewrite Hbk. simpl. by apply foldl_put_pure_keeps.
    + by rewrite Part001_loadDB_closed in Hload.
Qed.

Lemma X4_seeder_never_deletes_witness :
  let w := mkWorld {[ conf_json := json_doc units_ok ]}
             (bolt.mkDB true {[ PathRedirect := {[ "/old" := "https://old.example" ]} ]})
             [] [] in
  ∃ w', Part001.loadDB (env := go_sample) theDB w = Done None w' ∧
        ∃ bk', bolt.buckets (store w') !! PathRedirect = Some bk' ∧
               is_Some (bk' !! "/old").
Proof.
  intros w. eexists. split; [by vm_compute|].
  eapply (X4_seeder_never_deletes (env := go_sample) theDB w);
    [by vm_compute|reflexivity|]. by eexists.
Defined.

(** X5: seeding is idempotent: on an open database, with a seed file whose
    pairs the store accepts, a second run of the seeder succeeds and leaves
    the world exactly as the first run left it. *)
Theorem X5_seeding_twice_is_seeding_once {env : GoEnv} :
  ∀ w content parsed,
    bolt.opened (store w) = true →
    files w !! conf_json = Some content →
    json_Unmarshal content = (parsed, None) →
    (∀ k v, buildMapFromJson parsed !! k = Some v → put_error k v = None) →
    ∃ w1, Part001.loadDB theDB w = Done None w1 ∧
          Part001.loadDB theDB w1 = Done None w1.
Proof.
  intros w content parsed Hopen Hfile Hparse Hvalid.
  eexists. split; [by apply (Part001_loadDB_valid w content parsed)|].
  rewrite (Part001_loadDB_valid _ content parsed); [|done|done|done|done].
  simpl. rewrite lookup_insert_eq, insert_insert_eq. simpl.
  by rewrite (assoc_L (∪)), (idemp_L (∪)).
Qed.

Lemma X5_seeding_twice_is_seeding_once_witness :
  ∃ w1, Part001.loadDB (env := go_sample) theDB w_seeded = Done None w1 ∧
        Part001.loadDB (env := go_sample) theDB w1 = Done None w1.
Proof.
  apply (X5_seeding_twice_is_seeding_once (env := go_sample) w_seeded
           (json_doc units_ok) (mkPathUrlObjJson units_ok)
           eq_refl eq_refl eq_refl units_ok_valid).
Defined.

(** ** The built map *)

(** X6: the built map holds nothing but the input: every entry is a pair of
    the sequence, every path of the sequence is a key, and there are no
    more keys than pairs. *)
Theorem X6_buildMap_holds_exactly_the_input_paths :
  ∀ l : list pathUrlObj,
    (∀ p u, buildMap l !! p = Some u → ∃ x, x ∈ l ∧ Path x = p ∧ Url x = u) ∧
    (∀ x, x ∈ l → is_Some (buildMap l !! Path x)) ∧
    (size (buildMap l) ≤ length l)%nat.
Proof.
  induction l as [|z l (IHin & IHkey & IHsize)] using rev_ind.
  - split_and!; [|intros x Hx; by apply elem_of_nil in Hx|done].
    intros p u Hp. unfold buildMap in Hp. simpl in Hp. by rewrite lookup_empty in Hp.
  - rewrite buildMap_snoc. split_and!.
    + intros p u Hp. apply lookup_insert_Some in Hp as [[<- <-]|[_ Hp]].
      * exists z. split; [|done]. apply elem_of_app. right. by left.
      * destruct (IHin p u Hp) as (x & Hx & Hxp & Hxu).
        exists x. split; [|done]. apply elem_of_app. by left.
    + intros x Hx. apply elem_of_app in Hx as [Hx|Hx].
      * destruct (decide (Path z = Path x)) as [->|Hne].
        -- rewrite lookup_insert_eq. by eexists.
        -- rewrite lookup_insert_ne by done. by apply IHkey.
      * apply list_elem_of_singleton in Hx as ->. rewrite lookup_insert_eq. by eexists.
    + rewrite length_app. simpl.
      destruct (buildMap l !! Path z) eqn:Hz.
      * rewrite map_size_insert_Some by done. lia.
      * rewrite map_size_insert_None by done. lia.
Qed.

Lemma X6_buildMap_holds_exactly_the_input_paths_witness :
  let l := [mkPathUrlObj "/a" "x"; mkPathUrlObj "/b" "z"; mkPathUrlObj "/a" "y"] in
  (∃ x, x ∈ l ∧ Path x = "/a" ∧ Url x = "y") ∧ is_Some (buildMap l !! "/b").
Proof.
  intros l.
  destruct (X6_buildMap_holds_exactly_the_input_paths l) as (Hin & Hkey & _). split.
  - apply Hin. by vm_compute.
  - apply (Hkey (mkPathUrlObj "/b" "z")). right. by left.
Defined.

(** X7: the YAML and the JSON side build the same map: the JSON builder on
    the pairs of a YAML sequence gives what [buildMap] gives on it. *)
Theorem X7_buildMapFromJson_agrees_with_buildMap :
  ∀ l : list pathUrlObj,
    buildMapFromJson (mkPathUrlObjJson ((λ x, mkPathUrlUnit (Path x) (Url x)) <$> l))
      = buildMap l.
Proof.
  induction l as [|z l IH] using rev_ind; [done|].
  rewrite fmap_app. simpl. rewrite buildMapFromJson_snoc, buildMap_snoc.
  simpl. by rewrite IH.
Qed.

(** ** Chains of handlers *)

(** X8: two map-only handlers in a chain answer every request like one
    handler over the union of their maps, the first map winning; so a path
    of the first map never reaches the second handler. *)
Theorem X8_chain_of_maps_is_the_union :
  ∀ (A B : gmap string string) (dflt : Handler) r w,
    Part003.MapHandler A (Part003.MapHandler B dflt) r w
      = Part003.MapHandler (A ∪ B) dflt r w ∧
    Part001.MapHandler A (Part001.MapHandler B dflt) r w
      = Part001.MapHandler (A ∪ B) dflt r w ∧
    Part002.MapHandler A nilDB (Part002.MapHandler B nilDB dflt) r w
      = Part002.MapHandler (A ∪ B) nilDB dflt r w ∧
    Mpereira.MapHandler A nilDB (Mpereira.MapHandler B nilDB dflt) r w
      = Mpereira.MapHandler (A ∪ B) nilDB dflt r w.
Proof.
  intros A B dflt r w.
  unfold Part003.MapHandler, Part001.MapHandler, Part002.MapHandler,
    Mpereira.MapHandler.
  repeat case_decide; try done.
  rewrite lookup_union.
  by destruct (A !! URL_Path r), (B !! URL_Path r).
Qed.

(** ** The constructors *)

(** X9: when the YAML decodes, [YAMLHandler] returns a handler and a nil
    error and leaves the world alone; the handler redirects the path of a
    pair to the url of the last pair with that path (308 in mpereira's
    revision, 302 in [part_001]) and hands every path that no pair names to
    the fallback. *)
Theorem X9_YAMLHandler_serves_the_decoded_pairs {env : GoEnv} :
  ∀ yaml l (fallback : Handler) w,
    yaml_Unmarshal yaml = (l, None) →
    ∃ h h1,
      Mpereira.YAMLHandler yaml nilstr fallback w = Done (Some h, None) w ∧
      Part001.YAMLHandler yaml nilstr fallback w = Done (Some h1, None) w ∧
      (∀ (l1 : list pathUrlObj) x l2 w',
         l = (l1 ++ x :: l2)%list → (∀ y, y ∈ l2 → Path y ≠ Path x) →
         h (mkRequest (Path x)) w' = http_Redirect (Url x) 308 w' ∧
         h1 (mkRequest (Path x)) w' = http_Redirect (Url x) 302 w') ∧
      (∀ r w', (∀ y, y ∈ l → Path y ≠ URL_Path r) →
         h r w' = fallback r w' ∧ h1 r w' = fallback r w').
Proof.
  intros yaml l fallback w Hparse.
  exists (Mpereira.MapHandler (buildMap l) nilDB fallback),
         (Part001.MapHandler (buildMap l) fallback).
  split_and!.
  - unfold Mpereira.YAMLHandler, parseYAML. case_decide; [done|]. by rewrite Hparse.
  - unfold Part001.YAMLHandler, parseYAML. case_decide; [done|]. by rewrite Hparse.
  - intros l1 x l2 w' -> Hlater.
    pose proof (buildMap_lookup_last l1 x l2 Hlater) as Hx. split.
    + by apply Mpereira_MapHandler_nil_hit.
    + by apply Part001_MapHandler_hit.
  - intros r w' Hnone. pose proof (buildMap_lookup_none l _ Hnone) as Hr. split.
    + by apply Mpereira_MapHandler_nil_miss.
    + by apply Part001_MapHandler_miss.
Qed.

Lemma X9_YAMLHandler_serves_the_decoded_pairs_witness :
  ∃ h h1,
    Mpereira.YAMLHandler (env := go_sample) yaml_ok nilstr hello w_fresh
      = Done (Some h, None) w_fresh ∧
    Part001.YAMLHandler (env := go_sample) yaml_ok nilstr hello w_fresh
      = Done (Some h1, None) w_fresh ∧
    h (mkRequest "/urlshort") w_fresh = http_Redirect gophercises 308 w_fresh ∧
    h1 (mkRequest "/urlshort") w_fresh = http_Redirect gophercises 302 w_fresh ∧
    h (mkRequest "/unknown") w_fresh = hello (mkRequest "/unknown") w_fresh.
Proof.
  destruct (X9_YAMLHandler_serves_the_decoded_pairs (env := go_sample) yaml_ok
              [mkPathUrlObj "/urlshort" gophercises] hello w_fresh eq_refl)
    as (h & h1 & Hh & Hh1 & Hhit & Hmiss).
  exists h, h1.
  destruct (Hhit [] (mkPathUrlObj "/urlshort" gophercises) [] w_fresh eq_refl)
    as [Hhit308 Hhit302].
  { intros y Hy. by apply elem_of_nil in Hy. }
  split_and!; [done|done|done|done|].
  apply (Hmiss (mkRequest "/unknown") w_fresh).
  intros y Hy. apply list_elem_of_singleton in Hy as ->. simpl. discriminate.
Defined.

(** X10: a file path that cannot be read is an error even when the bytes
    argument is well formed: the constructors and [jsonReader] return the
    read error with a nil handler (or map), look at neither the bytes nor
    the database, and leave the world alone. *)
Theorem X10_unreadable_file_is_an_error {env : GoEnv} :
  ∀ bytes path db (fallback : Handler) w,
    path ≠ nilstr → files w !! path = None →
    Mpereira.YAMLHandler bytes path fallback w = Done (None, Some (ErrNotExist path)) w ∧
    Mpereira.JSONHandler bytes path db fallback w
      = Done (None, Some (ErrNotExist path)) w ∧
    Part002.JSONHandler bytes path db fallback w
      = Done (None, Some (ErrNotExist path)) w ∧
    Part003.JSONHandler bytes path fallback w = Done (None, Some (ErrNotExist path)) w ∧
    Part001.jsonReader path w = Done (∅, Some (ErrNotExist path)) w.
Proof.
  intros bytes path db fallback w Hpath Hfile.
  unfold Mpereira.YAMLHandler, Mpereira.JSONHandler, Part002.JSONHandler,
    Part003.JSONHandler, Part001.jsonReader.
  case_decide; [|done].
  unfold mbind, M_bind, ioutil_ReadFile, gets. by rewrite Hfile.
Qed.

Lemma X10_unreadable_file_is_an_error_witness :
  Mpereira.YAMLHandler (env := go_sample) yaml_ok "../conf.yaml" hello w_fresh
    = Done (None, Some (ErrNotExist "../conf.yaml")) w_fresh ∧
  Mpereira.JSONHandler (env := go_sample) (json_doc units_ok) "../conf.yaml" theDB
      hello w_fresh
    = Done (None, Some (ErrNotExist "../conf.yaml")) w_fresh.
Proof.
  destruct (X10_unreadable_file_is_an_error (env := go_sample) yaml_ok "../conf.yaml"
              theDB hello w_fresh) as (Hy & _); [discriminate|reflexivity|].
  destruct (X10_unreadable_file_is_an_error (env := go_sample) (json_doc units_ok)
              "../conf.yaml" theDB hello w_fresh) as (_ & Hj & _);
    [discriminate|reflexivity|].
  by split.
Defined.

(** X11: [JSONHandler] of mpereira's revision and of [part_002] needs a
    database: once the JSON has decoded, a nil handle is dereferenced by
    [db.Update] and the constructor panics, although the handler it would
    return accepts a nil handle. *)
Theorem X11_JSONHandler_panics_on_nil_database {env : GoEnv} :
  ∀ json parsed (fallback : Handler) w,
    json_Unmarshal json = (parsed, None) →
    Mpereira.JSONHandler json nilstr nilDB fallback w = Panicked NilDereference w ∧
    Part002.JSONHandler json nilstr nilDB fallback w = Panicked NilDereference w.
Proof.
  intros json parsed fallback w Hparse.
  unfold Mpereira.JSONHandler, Part002.JSONHandler, parseJSON.
  case_decide; [done|]. by rewrite Hparse.
Qed.

Lemma X11_JSONHandler_panics_on_nil_database_witness :
  Mpereira.JSONHandler (env := go_sample) (json_doc units_ok) nilstr nilDB hello w_fresh
    = Panicked NilDereference w_fresh.
Proof.
  apply (X11_JSONHandler_panics_on_nil_database (env := go_sample) (json_doc units_ok)
           (mkPathUrlObjJson units_ok) hello w_fresh eq_refl).
Defined.

(** X12: with a database that is not open, [JSONHandler] still returns a
    handler and a nil error and changes nothing; as long as the database
    stays closed that handler hands every request to the fallback. *)
Theorem X12_JSONHandler_on_closed_database {env : GoEnv} :
  ∀ json parsed (fallback : Handler) w,
    json_Unmarshal json = (parsed, None) →
    bolt.opened (store w) = false →
    ∃ h h2,
      Mpereira.JSONHandler json nilstr theDB fallback w = Done (Some h, None) w ∧
      Part002.JSONHandler json nilstr theDB fallback w = Done (Some h2, None) w ∧
      ∀ r w', bolt.opened (store w') = false →
        h r w' = fallback r w' ∧ h2 r w' = fallback r w'.
Proof.
  intros json parsed fallback w Hparse Hclosed.
  exists (Mpereira.MapHandler (buildMapFromJson parsed) theDB fallback),
         (Part002.MapHandler (buildMapFromJson parsed) theDB fallback).
  split_and!.
  - unfold Mpereira.JSONHandler, parseJSON. case_decide; [done|]. rewrite Hparse.
    unfold mbind, M_bind, DB_Update. by rewrite Hclosed.
  - unfold Part002.JSONHandler, parseJSON. case_decide; [done|]. rewrite Hparse.
    unfold mbind, M_bind, DB_Update. by rewrite Hclosed.
  - intros r w' Hclosed'. split.
    + by apply Mpereira_MapHandler_closed.
    + by apply Part002_MapHandler_closed.
Qed.

Lemma X12_JSONHandler_on_closed_database_witness :
  let w := mkWorld ∅ (bolt.mkDB false ∅) [] [] in
  ∃ h, Mpereira.JSONHandler (env := go_sample) (json_doc units_ok) nilstr theDB hello w
         = Done (Some h, None) w ∧
       h (mkRequest "/urlshort") w = hello (mkRequest "/urlshort") w.
Proof.
  intros w.
  destruct (X12_JSONHandler_on_closed_database (env := go_sample) (json_doc units_ok)
              (mkPathUrlObjJson units_ok) hello w eq_refl eq_refl)
    as (h & h2 & Hh & _ & Hserve).
  exists h. split; [done|]. by apply Hserve.
Defined.

(** X13: on an open database, with JSON that decodes into pairs the store
    accepts, mpereira's [JSONHandler] merges the decoded map into the bucket
    PathRedirect (creating it when missing, the JSON winning over what the
    bucket held); the handler it returns then answers every request with
    one 308 redirect to what the merged bucket holds for the path, the empty
    url when it holds nothing. *)
Theorem X13_JSONHandler_merges_then_serves_the_store {env : GoEnv} :
  ∀ json parsed (fallback : Handler) w,
    json_Unmarshal json = (parsed, None) →
    bolt.opened (store w) = true →
    (∀ k v, buildMapFromJson parsed !! k = Some v → put_error k v = None) →
    let merged := buildMapFromJson parsed
                    ∪ default ∅ (bolt.buckets (store w) !! PathRedirect) in
    let w1 := mkWorld (files w)
                (bolt.mkDB true (<[PathRedirect := merged]> (bolt.buckets (store w))))
                (resp w) (stdout w) in
    ∃ h, Mpereira.JSONHandler json nilstr theDB fallback w = Done (Some h, None) w1 ∧
         ∀ r, h r w1
              = Done tt (mkWorld (files w1) (store w1)
                           (resp w ++ [EvRedirect (default nilstr (merged !! URL_Path r))
                                         StatusPermanentRedirect])
                           (stdout w ++ ["just read: "
                                           +:+ default nilstr (merged !! URL_Path r)])).
Proof.
  intros json parsed fallback w Hparse Hopen Hvalid merged w1.
  exists (Mpereira.MapHandler (buildMapFromJson parsed) theDB fallback). split.
  - rewrite (Mpereira_JSONHandler_open json parsed) by done.
    rewrite last_put_error_valid by done.
    rewrite (foldl_put_pure_union (buildMapFromJson parsed));
      [|apply range_map_perm|done].
    unfold commit, w1, merged. simpl. by rewrite Hopen.
  - intros r. rewrite (Mpereira_MapHandler_store _ _ _ _ merged); [done|done|].
    simpl. apply lookup_insert_eq.
Qed.

Lemma X13_JSONHandler_merges_then_serves_the_store_witness :
  ∃ h, Mpereira.JSONHandler (env := go_sample) (json_doc units_ok) nilstr theDB hello
         w_fresh
         = Done (Some h, None)
             (mkWorld ∅ (bolt.mkDB true {[ PathRedirect := {[ "/urlshort" := gophercises ]} ]})
                [] []) ∧
       h (mkRequest "/urlshort")
           (mkWorld ∅ (bolt.mkDB true {[ PathRedirect := {[ "/urlshort" := gophercises ]} ]})
              [] [])
         = Done tt
             (mkWorld ∅ (bolt.mkDB true {[ PathRedirect := {[ "/urlshort" := gophercises ]} ]})
                [EvRedirect gophercises StatusPermanentRedirect]
                ["just read: " +:+ gophercises]).
Proof.
  destruct (X13_JSONHandler_merges_then_serves_the_store (env := go_sample)
              (json_doc units_ok) (mkPathUrlObjJson units_ok) hello w_fresh
              eq_refl eq_refl units_ok_valid) as (h & Hh & Hserve).
  exists h. split.
  - rewrite Hh. by vm_compute.
  - specialize (Hserve (mkRequest "/urlshort")).
    etransitivity; [|etransitivity; [exact Hserve|]]; by vm_compute.
Defined.

(** ** The store-backed [MapHandler] *)

(** X14: with a database handle, [MapHandler] does not consult its map, and
    serving a request over the terminal handler only reads: whatever the
    handle, the map and the request, the files and the database are after
    the request what they were before, also when the request panics. *)
Theorem X14_MapHandler_ignores_map_and_only_reads :
  (∀ (m1 m2 : gmap string string) (fallback : Handler) r w,
     Mpereira.MapHandler m1 theDB fallback r w
       = Mpereira.MapHandler m2 theDB fallback r w ∧
     Part002.MapHandler m1 theDB fallback r w
       = Part002.MapHandler m2 theDB fallback r w) ∧
  (∀ (m : gmap string string) db r w,
     match Mpereira.MapHandler m db hello r w with
     | Done _ w' | Panicked _ w' => files w' = files w ∧ store w' = store w
     end ∧
     match Part002.MapHandler m db hello r w with
     | Done _ w' | Panicked _ w' => files w' = files w ∧ store w' = store w
     end).
Proof.
  split.
  - intros m1 m2 fallback r w. unfold Mpereira.MapHandler, Part002.MapHandler.
    by case_decide.
  - intros m db r w. destruct db.
    + unfold Mpereira.MapHandler, Part002.MapHandler.
      case_decide; [done|]. by destruct (m !! URL_Path r).
    + destruct (bolt.opened (store w)) eqn:Hopen.
      * destruct (bolt.buckets (store w) !! PathRedirect) as [bk|] eqn:Hbk.
        -- rewrite (Mpereira_MapHandler_store _ _ _ _ bk) by done.
           by rewrite (Part002_MapHandler_store _ _ _ _ bk) by done.
        -- rewrite Mpereira_MapHandler_no_bucket by done.
           by rewrite Part002_MapHandler_no_bucket by done.
      * rewrite Mpereira_MapHandler_closed by done.
        by rewrite Part002_MapHandler_closed by done.
Qed.

(** X15: two store-backed handlers in a chain, as [main] of [part_000]
    composes them.  While the database is open the head answers by itself
    and the outcome is the same whatever stands behind it; when the
    database is not open the request falls through both handlers to the
    last fallback. *)
Theorem X15_chain_of_store_backed_handlers :
  ∀ (m1 m2 : gmap string string) (mux : Handler) r w,
    (bolt.opened (store w) = true →
       ∀ other : Handler,
         Mpereira.MapHandler m1 theDB (Mpereira.MapHandler m2 theDB mux) r w
           = Mpereira.MapHandler m1 theDB other r w ∧
         Part002.MapHandler m1 theDB (Part002.MapHandler m2 theDB mux) r w
           = Part002.MapHandler m1 theDB other r w) ∧
    (bolt.opened (store w) = false →
       Mpereira.MapHandler m1 theDB (Mpereira.MapHandler m2 theDB mux) r w = mux r w ∧
       Part002.MapHandler m1 theDB (Part002.MapHandler m2 theDB mux) r w = mux r w).
Proof.
  intros m1 m2 mux r w. split.
  - intros Hopen other.
    destruct (bolt.buckets (store w) !! PathRedirect) as [bk|] eqn:Hbk.
    + rewrite !(Mpereira_MapHandler_store _ _ _ _ bk) by done.
      by rewrite !(Part002_MapHandler_store _ _ _ _ bk) by done.
    + rewrite !Mpereira_MapHandler_no_bucket by done.
      by rewrite !Part002_MapHandler_no_bucket by done.
  - intros Hclosed.
    rewrite !Mpereira_MapHandler_closed by done.
    by rewrite !Part002_MapHandler_closed by done.
Qed.

Lemma X15_chain_of_store_backed_handlers_witness :
  Mpereira.MapHandler ∅ theDB (Mpereira.MapHandler pathsToUrls_main theDB hello)
      (mkRequest "/urlshort") w_seeded
    = Mpereira.MapHandler ∅ theDB hello (mkRequest "/urlshort") w_seeded ∧
  Mpereira.MapHandler ∅ theDB (Mpereira.MapHandler pathsToUrls_main theDB hello)
      (mkRequest "/urlshort") (mkWorld ∅ (bolt.mkDB false ∅) [] [])
    = hello (mkRequest "/urlshort") (mkWorld ∅ (bolt.mkDB false ∅) [] []).
Proof.
  split.
  - apply (X15_chain_of_store_backed_handlers ∅ pathsToUrls_main hello
             (mkRequest "/urlshort") w_seeded); reflexivity.
  - apply (X15_chain_of_store_backed_handlers ∅ pathsToUrls_main hello
             (mkRequest "/urlshort") (mkWorld ∅ (bolt.mkDB false ∅) [] [])); reflexivity.
Defined.

(** ** [JSONHandler] of [part_002] *)

Lemma foldl_put_pure_last (kvs1 kvs2 : list (string * string)) bk p u :
  p ∉ kvs2.*1 → put_error p u = None →
  foldl put_pure bk (kvs1 ++ (p, u) :: kvs2) !! p = Some u.
Proof.
  intros Hlater Hok. rewrite foldl_app. simpl.
  rewrite foldl_put_pure_other by done.
  unfold put_pure at 1. simpl. rewrite Hok. apply lookup_insert_eq.
Qed.

Section part002_upsert.
Context {env : GoEnv}.

(** While every pair encodes, the loop of [part_002] is the plain [Put]
    loop over the paths and the encodings, in the order of the slice. *)
Lemma Part002_range_encode_Put_ok b l err s :
  (∀ v, v ∈ l → (json_Marshal v).2 = None) →
  Part002.range_encode_Put b l err s
    = range_Put b ((λ v, (unit_Path v, (json_Marshal v).1)) <$> l) err s.
Proof.
  revert err s. induction l as [|v l IH]; intros err s Hok; [done|].
  cbn [Part002.range_encode_Put fmap list_fmap range_Put].
  unfold Part002.encodeJSON.
  pose proof (Hok v ltac:(by left)) as Hv.
  destruct (json_Marshal v) as [encoded [e|]]; [done|]. simpl.
  unfold mbind, M_bind. destruct (Bucket_Put b (unit_Path v) encoded s); [|done].
  apply IH. intros v' Hv'. apply Hok. by right.
Qed.

Lemma Part002_JSONHandler_open json parsed fallback w bk :
  json_Unmarshal json = (parsed, None) →
  bolt.opened (store w) = true →
  bolt.buckets (store w) !! PathRedirect = Some bk →
  (∀ v, v ∈ PathURL parsed → (json_Marshal v).2 = None) →
  Part002.JSONHandler json nilstr theDB fallback w =
    Done (Some (Part002.MapHandler (buildMapFromJson parsed) theDB fallback), None)
      (match last_put_error None
               ((λ v, (unit_Path v, (json_Marshal v).1)) <$> PathURL parsed) with
       | Some _ => w
       | None =>
           commit w (bolt.mkTx true
             (<[PathRedirect :=
                  foldl put_pure bk
                    ((λ v, (unit_Path v, (json_Marshal v).1)) <$> PathURL parsed)]>
                (bolt.buckets (store w))))
       end).
Proof.
  intros Hparse Hopen Hbk Hok. unfold Part002.JSONHandler.
  case_decide; [done|]. unfold parseJSON. rewrite Hparse.
  unfold mbind at 1, M_bind at 1, DB_Update. rewrite Hopen.
  unfold mbind at 1, M_bind at 1, Tx_Bucket, gets. simpl. rewrite Hbk.
  rewrite Part002_range_encode_Put_ok by done.
  rewrite (range_Put_writable _ _ _ _ _ bk) by done.
  by destruct (last_put_error _ _).
Qed.

End part002_upsert.

(** X16: in [part_002], on an open database that has the bucket, when every
    pair encodes and is accepted by [Put], the handler returned by
    [JSONHandler] redirects the path of a pair to the JSON encoding of the
    last pair of the slice with that path (not to its url), with 308. *)
Theorem X16_part002_serves_the_encoding_of_the_last_pair {env : GoEnv} :
  ∀ json parsed (fallback : Handler) w bk (l1 : list pathUrlUnit) v l2,
    json_Unmarshal json = (parsed, None) →
    bolt.opened (store w) = true →
    bolt.buckets (store w) !! PathRedirect = Some bk →
    (∀ x, x ∈ PathURL parsed →
       (json_Marshal x).2 = None ∧ put_error (unit_Path x) (json_Marshal x).1 = None) →
    PathURL parsed = (l1 ++ v :: l2)%list →
    (∀ y, y ∈ l2 → unit_Path y ≠ unit_Path v) →
    ∃ h w1, Part002.JSONHandler json nilstr theDB fallback w = Done (Some h, None) w1 ∧
            h (mkRequest (unit_Path v)) w1
              = http_Redirect (json_Marshal v).1 StatusPermanentRedirect w1.
Proof.
  intros json parsed fallback w bk l1 v l2 Hparse Hopen Hbk Hok Hsplit Hlater.
  eexists _, _. split.
  - apply (Part002_JSONHandler_open json parsed fallback w bk); [done|done|done|].
    intros x Hx. by apply Hok.
  - rewrite last_put_error_all_ok; [|done|].
    2:{ intros kv Hkv. apply list_elem_of_fmap in Hkv as (x & -> & Hx). by apply Hok. }
    erewrite Part002_MapHandler_store; [|done|simpl; apply lookup_insert_eq].
    simpl. rewrite Hsplit, fmap_app, fmap_cons.
    rewrite foldl_put_pure_last; [done| |].
    + intros Hin. rewrite <- list_fmap_compose in Hin.
      apply list_elem_of_fmap in Hin as (y & Hy & Hyin). simpl in Hy.
      by apply (Hlater y Hyin).
    + apply Hok. rewrite Hsplit. apply elem_of_app. right. by left.
Qed.

Lemma units_dup_valid x :
  x ∈ units_dup →
  (sample_json_Marshal x).2 = None ∧
  put_error (unit_Path x) (sample_json_Marshal x).1 = None.
Proof.
  unfold units_dup. intros Hx.
  apply elem_of_cons in Hx as [->|Hx]; [by vm_compute|].
  apply list_elem_of_singleton in Hx as ->. by vm_compute.
Qed.

Lemma X16_part002_serves_the_encoding_of_the_last_pair_witness :
  ∃ h w1, Part002.JSONHandler (env := go_sample) (json_doc units_dup) nilstr theDB hello
            w_bucket = Done (Some h, None) w1 ∧
          h (mkRequest "/a") w1
            = http_Redirect (json_unit (mkPathUrlUnit "/a" "https://y.example"))
                StatusPermanentRedirect w1.
Proof.
  apply (X16_part002_serves_the_encoding_of_the_last_pair (env := go_sample)
           (json_doc units_dup) (mkPathUrlObjJson units_dup) hello w_bucket ∅
           [mkPathUrlUnit "/a" "https://x.example"]
           (mkPathUrlUnit "/a" "https://y.example") []
           eq_refl eq_refl eq_refl units_dup_valid eq_refl).
  intros y Hy. by apply elem_of_nil in Hy.
Defined.

(** X17: [JSONHandler] of [part_002] never creates the bucket: on an open
    database without PathRedirect, a batch whose first pair encodes makes
    the constructor panic on the nil bucket, the world unchanged; only an
    empty batch gets through, and the bucket is still missing afterwards. *)
Theorem X17_part002_needs_the_bucket {env : GoEnv} :
  ∀ json parsed (fallback : Handler) w,
    json_Unmarshal json = (parsed, None) →
    bolt.opened (store w) = true →
    bolt.buckets (store w) !! PathRedirect = None →
    (∀ v rest, PathURL parsed = v :: rest → (json_Marshal v).2 = None →
       Part002.JSONHandler json nilstr theDB fallback w = Panicked NilDereference w) ∧
    (PathURL parsed = [] →
       ∃ h w', Part002.JSONHandler json nilstr theDB fallback w = Done (Some h, None) w' ∧
               bolt.buckets (store w') !! PathRedirect = None).
Proof.
  intros json parsed fallback w Hparse Hopen Hbk. split.
  - intros v rest Hl Hv. unfold Part002.JSONHandler.
    case_decide; [done|]. unfold parseJSON. rewrite Hparse.
    unfold mbind at 1, M_bind at 1, DB_Update. rewrite Hopen.
    unfold mbind at 1, M_bind at 1, Tx_Bucket, gets. simpl. rewrite Hbk, Hl.
    cbn [Part002.range_encode_Put]. unfold Part002.encodeJSON.
    destruct (json_Marshal v) as [encoded [e|]]; [done|]. done.
  - intros Hl. unfold Part002.JSONHandler.
    case_decide; [done|]. unfold parseJSON. rewrite Hparse.
    unfold mbind at 1, M_bind at 1, DB_Update. rewrite Hopen.
    unfold mbind at 1, M_bind at 1, Tx_Bucket, gets. simpl. rewrite Hbk, Hl.
    simpl. by eexists _, _.
Qed.

Lemma X17_part002_needs_the_bucket_witness :
  Part002.JSONHandler (env := go_sample) (json_doc units_ok) nilstr theDB hello w_fresh
    = Panicked NilDereference w_fresh.
Proof.
  destruct (X17_part002_needs_the_bucket (env := go_sample) (json_doc units_ok)
              (mkPathUrlObjJson units_ok) hello w_fresh eq_refl eq_refl eq_refl)
    as [Hpanic _].
  by apply (Hpanic (mkPathUrlUnit "/urlshort" gophercises) []).
Defined.

(** ** More on the seeding *)

(** X18: when every [Put] succeeds, the order in which [range] visits the
    map does not matter: two runtimes that decode alike but visit maps in
    different orders give the same seeded world and, for mpereira's
    [JSONHandler], the same handler and world. *)
Theorem X18_upsert_does_not_depend_on_range_order :
  ∀ (env1 env2 : GoEnv) content parsed (fallback : Handler) w,
    json_Unmarshal (GoEnv := env1) content = (parsed, None) →
    json_Unmarshal (GoEnv := env2) content = (parsed, None) →
    (∀ k v, buildMapFromJson parsed !! k = Some v → put_error k v = None) →
    bolt.opened (store w) = true →
    Mpereira.JSONHandler (env := env1) content nilstr theDB fallback w
      = Mpereira.JSONHandler (env := env2) content nilstr theDB fallback w ∧
    (files w !! conf_json = Some content →
       Part001.loadDB (env := env1) theDB w = Part001.loadDB (env := env2) theDB w).
Proof.
  intros env1 env2 content parsed fallback w Hp1 Hp2 Hvalid Hopen. split.
  - rewrite (Mpereira_JSONHandler_open (env := env1) content parsed) by done.
    rewrite (Mpereira_JSONHandler_open (env := env2) content parsed) by done.
    rewrite !last_put_error_valid by done.
    rewrite !(foldl_put_pure_union (buildMapFromJson parsed));
      [done|apply range_map_perm|done|apply range_map_perm|done].
  - intros Hfile.
    rewrite (Part001_loadDB_valid (env := env1) w content parsed) by done.
    by rewrite (Part001_loadDB_valid (env := env2) w content parsed) by done.
Qed.

Lemma units_two_valid k v :
  buildMapFromJson (mkPathUrlObjJson units_two) !! k = Some v → put_error k v = None.
Proof.
  change (buildMapFromJson (mkPathUrlObjJson units_two))
    with (<[ "/urlshort-final" := "https://github.com/gophercises/urlshort/tree/solution" ]>
            (<[ "/urlshort" := gophercises ]> (∅ : gmap string string))).
  intros Hkv. apply lookup_insert_Some in Hkv as [[<- <-]|[_ Hkv]]; [by vm_compute|].
  apply lookup_insert_Some in Hkv as [[<- <-]|[_ Hkv]]; [by vm_compute|].
  by rewrite lookup_empty in Hkv.
Qed.

Lemma X18_upsert_does_not_depend_on_range_order_witness :
  range_map (GoEnv := go_two) (buildMapFromJson (mkPathUrlObjJson units_two))
    ≠ range_map (GoEnv := go_two_rev) (buildMapFromJson (mkPathUrlObjJson units_two)) ∧
  Mpereira.JSONHandler (env := go_two) (json_doc units_two) nilstr theDB hello w_two
    = Mpereira.JSONHandler (env := go_two_rev) (json_doc units_two) nilstr theDB hello
        w_two ∧
  Part001.loadDB (env := go_two) theDB w_two
    = Part001.loadDB (env := go_two_rev) theDB w_two ∧
  Part001.loadDB (env := go_two) theDB w_two
    = Done None
        (mkWorld (files w_two)
           (bolt.mkDB true
              {[ PathRedirect :=
                   {[ "/old" := "https://old.example";
                      "/urlshort" := gophercises;
                      "/urlshort-final" :=
                        "https://github.com/gophercises/urlshort/tree/solution" ]} ]})
           [] []).
Proof.
  destruct (X18_upsert_does_not_depend_on_range_order go_two go_two_rev
              (json_doc units_two) (mkPathUrlObjJson units_two) hello w_two
              eq_refl eq_refl units_two_valid eq_refl) as [Hhandler Hload].
  split_and!.
  - by vm_compute.
  - exact Hhandler.
  - by apply Hload.
  - by vm_compute.
Defined.

(** X19: [jsonReader] leaves the world alone and never returns a map next
    to an error: with an error the map is nil, also when the decoder left a
    partly filled value; without one the map is the map built from the
    decoded pairs. *)
Theorem X19_jsonReader_returns_a_map_or_an_error {env : GoEnv} :
  ∀ filePath w,
    ∃ pathMap err, Part001.jsonReader filePath w = Done (pathMap, err) w ∧
      (is_Some err → pathMap = ∅) ∧
      (∀ content, filePath ≠ nilstr → files w !! filePath = Some content → err = None →
         pathMap = buildMapFromJson (json_Unmarshal content).1).
Proof.
  intros filePath w. destruct (decide (filePath = nilstr)) as [->|Hne].
  - exists ∅, None. split_and!; [done|done|]. by intros content Hne.
  - destruct (files w !! filePath) as [content|] eqn:Hfile.
    + rewrite (Part001_jsonReader_read _ _ content) by done.
      destruct (json_Unmarshal content) as [parsed [e|]] eqn:Hparse.
      * exists ∅, (Some e). split_and!; [done|done|]. by intros content' _ _ ?.
      * exists (buildMapFromJson parsed), None. split_and!; [done|by intros [? ?]|].
        intros content' _ Hc _. simplify_eq. by rewrite Hparse.
    + rewrite Part001_jsonReader_missing by done.
      exists ∅, (Some (ErrNotExist filePath)). split_and!; [done|done|].
      by intros content _ ?.
Qed.

Lemma X19_jsonReader_returns_a_map_or_an_error_witness :
  ∃ pathMap err,
    Part001.jsonReader (env := go_sample) conf_json w_seeded
      = Done (pathMap, err) w_seeded ∧
    (err = None →
       pathMap = buildMapFromJson (sample_json_Unmarshal (json_doc units_ok)).1).
Proof.
  destruct (X19_jsonReader_returns_a_map_or_an_error (env := go_sample) conf_json
              w_seeded) as (pathMap & err & Hrun & _ & Hmap).
  exists pathMap, err. split; [done|]. intros Herr.
  apply (Hmap (json_doc units_ok)); [discriminate|reflexivity|done].
Defined.

(** X20: [DBHandler] panics, without a response, when the database is not
    open and when the seed file does not decode; in both cases the read
    transaction and the fallback are never reached. *)
Theorem X20_DBHandler_panics_on_closed_database_and_bad_seed {env : GoEnv} :
  ∀ (fallback : Handler) r w,
    (bolt.opened (store w) = false →
       Part001.DBHandler theDB fallback r w
         = Panicked (PanicError ErrDatabaseNotOpen) w) ∧
    (∀ content partial e,
       bolt.opened (store w) = true →
       files w !! conf_json = Some content →
       json_Unmarshal content = (partial, Some e) →
       Part001.DBHandler theDB fallback r w = Panicked (PanicError e) w).
Proof.
  intros fallback r w. split.
  - intros Hclosed. apply Part001_DBHandler_seed_error.
    by apply Part001_loadDB_closed.
  - intros content partial e Hopen Hfile Hparse.
    apply Part001_DBHandler_seed_error.
    rewrite Part001_loadDB_open by done.
    rewrite (Part001_jsonReader_read _ _ content) by done. by rewrite Hparse.
Qed.

Lemma X20_DBHandler_panics_on_closed_database_and_bad_seed_witness :
  Part001.DBHandler (env := go_sample) theDB hello (mkRequest "/urlshort")
      (mkWorld ∅ (bolt.mkDB false ∅) [] [])
    = Panicked (PanicError ErrDatabaseNotOpen) (mkWorld ∅ (bolt.mkDB false ∅) [] []) ∧
  Part001.DBHandler (env := go_sample) theDB hello (mkRequest "/urlshort")
      (mkWorld {[ conf_json := json_wrong_type ]} (bolt.mkDB true ∅) [] [])
    = Panicked
        (PanicError (ErrCodec "json: cannot unmarshal number into Go struct field pathUrlUnit.path of type string"))
        (mkWorld {[ conf_json := json_wrong_type ]} (bolt.mkDB true ∅) [] []).
Proof.
  split.
  - apply (X20_DBHandler_panics_on_closed_database_and_bad_seed (env := go_sample)
             hello (mkRequest "/urlshort") (mkWorld ∅ (bolt.mkDB false ∅) [] [])).
    reflexivity.
  - apply (X20_DBHandler_panics_on_closed_database_and_bad_seed (env := go_sample)
             hello (mkRequest "/urlshort")
             (mkWorld {[ conf_json := json_wrong_type ]} (bolt.mkDB true ∅) [] [])
           ) with (content := json_wrong_type)
                  (partial := mkPathUrlObjJson [mkPathUrlUnit nilstr nilstr]);
      reflexivity.
Defined.

(** X21: a JSON file named by the path argument wins over the bytes: when
    it decodes, the map-only [JSONHandler] returns a handler that redirects
    the path of a pair of the file to the url of the last pair with that
    path (308 in [part_003], 302 in [part_001]) and hands every other path
    to the fallback. *)
Theorem X21_JSONHandler_serves_the_file {env : GoEnv} :
  ∀ bytes path content parsed (fallback : Handler) w,
    path ≠ nilstr → files w !! path = Some content →
    json_Unmarshal content = (parsed, None) →
    ∃ h3 h1,
      Part003.JSONHandler bytes path fallback w = Done (Some h3, None) w ∧
      Part001.JSONHandler bytes path fallback w = Done (Some h1, None) w ∧
      (∀ (l1 : list pathUrlUnit) x l2 w',
         PathURL parsed = (l1 ++ x :: l2)%list →
         (∀ y, y ∈ l2 → unit_Path y ≠ unit_Path x) →
         h3 (mkRequest (unit_Path x)) w' = http_Redirect (unit_URL x) 308 w' ∧
         h1 (mkRequest (unit_Path x)) w' = http_Redirect (unit_URL x) 302 w') ∧
      (∀ r w', buildMapFromJson parsed !! URL_Path r = None →
         h3 r w' = fallback r w' ∧ h1 r w' = fallback r w').
Proof.
  intros bytes path content parsed fallback w Hpath Hfile Hparse.
  exists (Part003.MapHandler (buildMapFromJson parsed) fallback),
         (Part001.MapHandler (buildMapFromJson parsed) fallback).
  split_and!.
  - unfold Part003.JSONHandler. case_decide; [|done].
    unfold mbind, M_bind, ioutil_ReadFile, gets, parseJSON. rewrite Hfile. simpl.
    by rewrite Hparse.
  - unfold Part001.JSONHandler. case_decide; [|done].
    unfold mbind, M_bind, ioutil_ReadFile, gets, parseJSON. rewrite Hfile. simpl.
    by rewrite Hparse.
  - intros l1 x l2 w' Hsplit Hlater.
    pose proof (buildMapFromJson_lookup_last l1 x l2 Hlater) as Hx.
    rewrite <- Hsplit in Hx. destruct parsed as [l]. simpl in *. split.
    + by apply Part003_MapHandler_hit.
    + by apply Part001_MapHandler_hit.
  - intros r w' Hnone. split.
    + by apply Part003_MapHandler_miss.
    + by apply Part001_MapHandler_miss.
Qed.

Lemma X21_JSONHandler_serves_the_file_witness :
  let w := mkWorld {[ conf_json := json_doc units_dup ]} (bolt.mkDB true ∅) [] [] in
  ∃ h3, Part003.JSONHandler (env := go_sample) json_wrong_type conf_json hello w
          = Done (Some h3, None) w ∧
        h3 (mkRequest "/a") w = http_Redirect "https://y.example" 308 w.
Proof.
  intros w.
  destruct (X21_JSONHandler_serves_the_file (env := go_sample) json_wrong_type conf_json
              (json_doc units_dup) (mkPathUrlObjJson units_dup) hello w)
    as (h3 & h1 & Hh3 & _ & Hhit & _); [discriminate|reflexivity|reflexivity|].
  exists h3. split; [done|].
  apply (Hhit [mkPathUrlUnit "/a" "https://x.example"]
           (mkPathUrlUnit "/a" "https://y.example") [] w eq_refl).
  intros y Hy. by apply elem_of_nil in Hy.
Defined.
